(** * NVI_ETL: the MSSQL -> PostgreSQL sales pipeline of [main.go]

    A shallow embedding of [runETL] together with the part of the two
    database handles it talks to.  The Go function is sequential and all of
    its state lives in the two stores, so the embedding is a pure function
    from the two stores (and the faults their drivers may raise) to the
    value returned, the committed content of the target relation and the
    trace of calls and log lines.

    - The two SQL texts are kept as small syntax trees ([query],
      [insertSQL]) and given their meaning by the servers: [DB_Query]
      projects and orders, [Stmt_Exec] builds a row and checks the primary
      key that [createTableSQL] declares.
    - What the code cannot know is an input: the rows of the source and the
      order the server keeps them in, its collation, the conversions of
      [database/sql], and the faults of either server.
    - [defer] is modelled at each [return]: the deferred calls are listed
      last in, first out, and [tx.Rollback()] discards the working copy of a
      transaction that is still open. *)

From Stdlib Require Import List String Ascii ZArith Lia Bool.
From Stdlib Require Import Permutation Sorted DecimalString OrderedTypeEx.
Import ListNotations.
Local Open Scope string_scope.
Local Open Scope list_scope.

Infix "+++" := String.append (right associativity, at level 60).

(** ** Go values *)

(** [float64] is kept as its IEEE-754 bit pattern and [time.Time] as an
    instant in nanoseconds: the pipeline moves them and never computes on
    them. *)
Definition float64 := Z.
Definition time := Z.

(** [driver.Value]: what a driver hands to [Rows.Scan] and accepts from
    [Stmt.Exec].  [DNil] is SQL NULL. *)
Inductive driver_value :=
| DNil
| DInt64 (n : Z)
| DFloat64 (f : float64)
| DBool (b : bool)
| DBytes (b : string)
| DString (s : string)
| DTime (t : time).

Definition is_nil (v : driver_value) : bool :=
  match v with DNil => true | _ => false end.

(** A Go call that returns [(T, error)]. *)
Inductive result (A : Type) :=
| Ok (a : A)
| Err (e : string).
Arguments Ok {A} a.
Arguments Err {A} e.

Definition bind {A B} (r : result A) (k : A -> result B) : result B :=
  match r with Ok a => k a | Err e => Err e end.

Notation "x <- c ;; k" := (bind c (fun x => k))
  (at level 61, c at next level, right associativity).

(** [int] on the 64-bit targets the program is built for. *)
Definition wrap_int (z : Z) : Z := ((z + 2 ^ 63) mod 2 ^ 64 - 2 ^ 63)%Z.

(** [fmt]'s [%d]. *)
Definition fmt_d (z : Z) : string := NilZero.string_of_int (Z.to_int z).

Definition quote : string := String (ascii_of_nat 34) EmptyString.

(** [sql.NullString], [sql.NullTime], [sql.NullFloat64]. *)
Record NullString := { ns_String : string; ns_Valid : bool }.
Record NullTime := { nt_Time : time; nt_Valid : bool }.
Record NullFloat64 := { nf_Float64 : float64; nf_Valid : bool }.

(** The [Value] methods of the three holders ([driver.Valuer]), called by
    [database/sql] on every argument of [Exec]. *)
Definition NullString_Value (ns : NullString) : driver_value :=
  if ns_Valid ns then DString (ns_String ns) else DNil.
Definition NullTime_Value (nt : NullTime) : driver_value :=
  if nt_Valid nt then DTime (nt_Time nt) else DNil.
Definition NullFloat64_Value (nf : NullFloat64) : driver_value :=
  if nf_Valid nf then DFloat64 (nf_Float64 nf) else DNil.

(** [DataRow]: declared by main.go and used nowhere in it; [runETL] keeps
    a row in twelve nullable locals instead (see [Locals]). *)
Record DataRow := {
  FsNo : string;
  SaleType : string;
  AttachmentNo : string;
  Customer : string;
  Region : string;
  Date : time;
  Code : string;
  Name : string;
  MeasurementUnit : string;
  UnitPrice : float64;
  SoldQuantity : float64;
  NetPay : float64
}.

(** ** The source store *)

Definition sourceTableName : string := "Sales".
Definition targetTableName : string := "SalesDB".

(** A row of the source relation, one field per column the query names. *)
Module Sales.
Record row := {
  fsno : driver_value;
  salestype : driver_value;
  attachmentno : driver_value;
  customer : driver_value;
  region : driver_value;
  date : driver_value;
  code : driver_value;
  name : driver_value;
  measurementunit : driver_value;
  unitprice : driver_value;
  soldquantity : driver_value;
  netpay : driver_value
}.

Definition columns : list string :=
  ["fsno"; "salestype"; "attachmentno"; "customer"; "region"; "date";
   "code"; "name"; "measurementunit"; "unitprice"; "soldquantity"; "netpay"].

Definition column (c : string) (r : row) : option driver_value :=
  if (c =? "fsno")%string then Some (fsno r)
  else if (c =? "salestype")%string then Some (salestype r)
  else if (c =? "attachmentno")%string then Some (attachmentno r)
  else if (c =? "customer")%string then Some (customer r)
  else if (c =? "region")%string then Some (region r)
  else if (c =? "date")%string then Some (date r)
  else if (c =? "code")%string then Some (code r)
  else if (c =? "name")%string then Some (name r)
  else if (c =? "measurementunit")%string then Some (measurementunit r)
  else if (c =? "unitprice")%string then Some (unitprice r)
  else if (c =? "soldquantity")%string then Some (soldquantity r)
  else if (c =? "netpay")%string then Some (netpay r)
  else None.
End Sales.

(** [SELECT cols FROM tbl ORDER BY col]. *)
Record select_stmt := {
  sel_columns : list string;
  sel_from : string;
  sel_order_by : option string
}.

(** The source handle: the relation in the order the server happens to keep
    it, and the faults of this run: [query_fault] refuses the query,
    [cursor_fault = Some (n, e)] breaks the cursor with [e] once [n] rows
    have been delivered. *)
Record SourceDB := {
  src_Sales : list Sales.row;
  query_fault : option string;
  cursor_fault : option (nat * string)
}.

(** [*sql.Rows] as [runETL] sees it: the rows [Next] will deliver before it
    returns false, and what [Err] reports then. *)
Record Rows := {
  rows_columns : list string;
  rows_data : list (list driver_value);
  rows_err : option string
}.

(** ** The target store *)

Inductive sql_type :=
| VARCHAR (n : nat)
| DATE
| NUMERIC (p s : nat).

Record column_def := {
  col_name : string;
  col_type : sql_type;
  col_primary_key : bool
}.

(** The relation [ensureTargetTable] creates (main.go, [createTableSQL]). *)
Definition createTableSQL : list column_def :=
  [ {| col_name := "fsno"; col_type := VARCHAR 50; col_primary_key := true |};
    {| col_name := "salestype"; col_type := VARCHAR 50; col_primary_key := false |};
    {| col_name := "attachmentno"; col_type := VARCHAR 50; col_primary_key := false |};
    {| col_name := "customer"; col_type := VARCHAR 100; col_primary_key := false |};
    {| col_name := "region"; col_type := VARCHAR 50; col_primary_key := false |};
    {| col_name := "sale_date"; col_type := DATE; col_primary_key := false |};
    {| col_name := "code"; col_type := VARCHAR 50; col_primary_key := false |};
    {| col_name := "item_name"; col_type := VARCHAR 100; col_primary_key := false |};
    {| col_name := "measurement_unit"; col_type := VARCHAR 50; col_primary_key := false |};
    {| col_name := "unit_price"; col_type := NUMERIC 12 2; col_primary_key := false |};
    {| col_name := "sold_quantity"; col_type := NUMERIC 12 2; col_primary_key := false |};
    {| col_name := "net_pay"; col_type := NUMERIC 12 2; col_primary_key := false |} ].

Definition schema_columns : list string := map col_name createTableSQL.

Definition primary_key : string :=
  match find col_primary_key createTableSQL with
  | Some c => col_name c
  | None => EmptyString
  end.

(** A stored row: column name and value, in schema order. *)
Definition stored_row := list (string * driver_value).
Definition table := list stored_row.

Fixpoint assoc (c : string) (r : stored_row) : option driver_value :=
  match r with
  | [] => None
  | (c', v) :: r' => if (c =? c')%string then Some v else assoc c r'
  end.

Definition field (c : string) (r : stored_row) : driver_value :=
  match assoc c r with Some v => v | None => DNil end.

(** [INSERT INTO tbl (cols) VALUES ($i, ...) ON CONFLICT (col) DO NOTHING]. *)
Record insert_stmt := {
  ins_table : string;
  ins_columns : list string;
  ins_values : list nat;
  ins_on_conflict_do_nothing : option string
}.

(** The target handle: the committed relation and the faults of this run.
    [exec_faults] is read one entry per [Exec] call: [Some e] makes that call
    fail with [e] whatever its arguments (a value the column type refuses, a
    lost connection). *)
Record TargetDB := {
  tgt_SalesDB : table;
  begin_fault : option string;
  prepare_fault : option string;
  exec_faults : list (option string);
  commit_fault : option string
}.

(** ** What a run leaves behind *)

Inductive event :=
| SourceQuery (q : select_stmt)
| RowsClose
| TargetBegin
| TxPrepare (s : insert_stmt)
| StmtExec (args : list driver_value)
| StmtClose
| TxCommit
| TxRollback
| Log (line : string).

Record Outcome := {
  count : Z;
  err : option string;
  committed : table;
  trace : list event
}.

(** The variables [runETL] declares afresh in every iteration and hands to
    [rows.Scan] by address. *)
Record Locals := {
  fsno : NullString;
  salestype : NullString;
  attachmentno : NullString;
  customer : NullString;
  region : NullString;
  date : NullTime;
  code : NullString;
  name : NullString;
  measurementunit : NullString;
  unitprice : NullFloat64;
  soldquantity : NullFloat64;
  netpay : NullFloat64
}.

(** The target connection while [runETL] holds it: what other sessions see,
    and the working copy of the open transaction, if any. *)
Record Session := {
  sess_committed : table;
  sess_pending : option table
}.

Definition driver_value_eqb (a b : driver_value) : bool :=
  match a, b with
  | DNil, DNil => true
  | DInt64 x, DInt64 y => (x =? y)%Z
  | DFloat64 x, DFloat64 y => (x =? y)%Z
  | DBool x, DBool y => Bool.eqb x y
  | DBytes x, DBytes y => (x =? y)%string
  | DString x, DString y => (x =? y)%string
  | DTime x, DTime y => (x =? y)%Z
  | _, _ => false
  end.

(** ** The process around the pipeline *)

(** [CREATE TABLE [IF NOT EXISTS] SalesDB (cols)].  The target model holds
    one relation, the one [targetTableName] names. *)
Record create_stmt := {
  ct_if_not_exists : bool;
  ct_columns : list column_def
}.

(** The source server as [main] finds it: the handle [runETL] will get, and
    the faults of [sql.Open] and [Ping]. *)
Record SourceServer := {
  src_handle : SourceDB;
  src_open_fault : option string;
  src_ping_fault : option string
}.

(** The target server as [main] finds it: the relation, if it exists yet,
    and the faults of [sql.Open], [Ping], the DDL and the transaction. *)
Record TargetServer := {
  srv_SalesDB : option table;
  tgt_open_fault : option string;
  tgt_ping_fault : option string;
  ddl_fault : option string;
  srv_begin_fault : option string;
  srv_prepare_fault : option string;
  srv_exec_faults : list (option string);
  srv_commit_fault : option string
}.

(** What [godotenv.Load()] returns: nil, or an error that [os.IsNotExist]
    recognises or not. *)
Inductive dotenv_result :=
| Loaded
| LoadError (e : string) (is_not_exist : bool).

(** The world of one run of the program: the outcome of loading [.env],
    the environment as [os.Getenv] reads it after that, the two servers the
    connection strings name, and what [time.Since(startTime)] will print
    as. *)
Record Process := {
  dotenv : dotenv_result;
  Getenv : string -> string;
  source_server : SourceServer;
  target_server : TargetServer;
  elapsed : string
}.

Inductive handle := SourceHandle | TargetHandle.

(** What a run of the program leaves: its exit status, the lines it logged,
    the handles its deferred [Close] calls released, in order, the relation
    on the target, and what [runETL] returned if it was called. *)
Record Exit := {
  exit_code : Z;
  printed : list string;
  closed : list handle;
  relation : option table;
  pipeline : option Outcome
}.

(** ** A driver, a collation and a few stores to run the pipeline on *)

Module Example.

(** Conversions that take a value of the destination's own Go type (and
    bytes for a string) and refuse the rest. *)
Definition convertAssign_string (v : driver_value) : result string :=
  match v with
  | DString s | DBytes s => Ok s
  | _ => Err "unsupported Scan, storing driver.Value into type *string"
  end.

Definition convertAssign_Time (v : driver_value) : result time :=
  match v with
  | DTime t => Ok t
  | _ => Err "unsupported Scan, storing driver.Value into type *time.Time"
  end.

Definition convertAssign_float64 (v : driver_value) : result float64 :=
  match v with
  | DFloat64 f => Ok f
  | _ => Err "converting driver.Value to a float64: invalid syntax"
  end.

(** A binary collation: NULL first, text by code point. *)
Definition text (v : driver_value) : string :=
  match v with
  | DString s | DBytes s => s
  | _ => EmptyString
  end.

Definition collate (a b : driver_value) : bool :=
  match String_as_OT.cmp (text a) (text b) with
  | Gt => false
  | _ => true
  end.

(** A sale: its [fsno], a customer, a date, and its [netpay]. *)
Definition sale (k np : driver_value) : Sales.row :=
  {| Sales.fsno := k;
     Sales.salestype := DString "cash";
     Sales.attachmentno := DNil;
     Sales.customer := DString "Abebe";
     Sales.region := DNil;
     Sales.date := DTime 1700000000000000000%Z;
     Sales.code := DString "P-7";
     Sales.name := DNil;
     Sales.measurementunit := DString "pcs";
     Sales.unitprice := DFloat64 4617315517961601024%Z;
     Sales.soldquantity := DNil;
     Sales.netpay := np |}.

(** 100.50 as a [float64]. *)
Definition f100_50 : driver_value := DFloat64 4636772475726725120%Z.

Definition source (heap : list Sales.row) : SourceDB :=
  {| src_Sales := heap; query_fault := None; cursor_fault := None |}.

Definition target (t : table) (fs : list (option string)) : TargetDB :=
  {| tgt_SalesDB := t;
     begin_fault := None;
     prepare_fault := None;
     exec_faults := fs;
     commit_fault := None |}.

(** The scenario of the specification: [A1] with a net pay, [A2] without,
    kept by the server in the other order. *)
Definition two_sales : list Sales.row :=
  [sale (DString "A2") DNil; sale (DString "A1") f100_50].

(** Ten sales; the fifth in [fsno] order will be refused by the target. *)
Definition ten_sales : list Sales.row :=
  map (fun k => sale (DString k) f100_50)
    ["B03"; "B01"; "B02"; "B10"; "B05"; "B04"; "B07"; "B06"; "B09"; "B08"].

Definition fifth_fails : list (option string) :=
  [None; None; None; None;
   Some "pq: value too long for type character varying(50)"].

(** Three sales, the second with a net pay that is not a number. *)
Definition one_malformed : list Sales.row :=
  [sale (DString "C1") f100_50; sale (DString "C2") (DString "n/a");
   sale (DString "C3") DNil].

(** A sale without [fsno]. *)
Definition no_key : list Sales.row := [sale DNil DNil].

(** The stored form of [A1]. *)
Definition stored_A1 : stored_row :=
  [("fsno", DString "A1"); ("salestype", DString "cash");
   ("attachmentno", DNil); ("customer", DString "Abebe"); ("region", DNil);
   ("sale_date", DTime 1700000000000000000%Z); ("code", DString "P-7");
   ("item_name", DNil); ("measurement_unit", DString "pcs");
   ("unit_price", DFloat64 4617315517961601024%Z); ("sold_quantity", DNil);
   ("net_pay", f100_50)].

End Example.

(** ** More stores, and a process, for the paths the examples above leave *)

Module Fixture.

(** The cursor breaks after three rows. *)
Definition broken_cursor : SourceDB :=
  {| src_Sales := Example.ten_sales;
     query_fault := None;
     cursor_fault := Some (3%nat, "mssql: connection reset by peer") |}.

(** Two source rows with the same [fsno], and a third. *)
Definition twice_A1 : list Sales.row :=
  [Example.sale (DString "A1") Example.f100_50;
   Example.sale (DString "A1") DNil;
   Example.sale (DString "A2") DNil].

(** A stored row that no source row of the examples matches. *)
Definition stored_Z9 : stored_row :=
  [("fsno", DString "Z9"); ("salestype", DNil); ("attachmentno", DNil);
   ("customer", DNil); ("region", DNil); ("sale_date", DNil); ("code", DNil);
   ("item_name", DNil); ("measurement_unit", DNil); ("unit_price", DNil);
   ("sold_quantity", DNil); ("net_pay", DNil)].

(** What the relation holds under [A1] from an earlier load. *)
Definition old_A1 : stored_row :=
  [("fsno", DString "A1"); ("salestype", DString "credit");
   ("attachmentno", DNil); ("customer", DString "Kebede"); ("region", DNil);
   ("sale_date", DNil); ("code", DNil); ("item_name", DNil);
   ("measurement_unit", DNil); ("unit_price", DNil); ("sold_quantity", DNil);
   ("net_pay", DNil)].

Definition target_with (t : table) (b p c : option string) : TargetDB :=
  {| tgt_SalesDB := t;
     begin_fault := b;
     prepare_fault := p;
     exec_faults := [];
     commit_fault := c |}.

(** The environment of a configured process. *)
Definition getenv (k : string) : string :=
  if (k =? "MSSQL_CONN")%string then "sqlserver://etl@prod:1433?database=nvi"
  else if (k =? "POSTGRES_CONN")%string then "postgres://etl@replica/metabase"
  else EmptyString.

Definition server (rel : option table) (ddl commit : option string)
    : TargetServer :=
  {| srv_SalesDB := rel;
     tgt_open_fault := None;
     tgt_ping_fault := None;
     ddl_fault := ddl;
     srv_begin_fault := None;
     srv_prepare_fault := None;
     srv_exec_faults := [];
     srv_commit_fault := commit |}.

(** A process with no [.env] file, the two [Example.two_sales] at the
    source and the relation [rel] at the target. *)
Definition process (rel : option table) (ddl commit : option string) : Process :=
  {| dotenv := LoadError "open .env: no such file or directory" true;
     Getenv := getenv;
     source_server :=
       {| src_handle := Example.source Example.two_sales;
          src_open_fault := None;
          src_ping_fault := None |};
     target_server := server rel ddl commit;
     elapsed := "41.7ms" |}.

(** The same process with [POSTGRES_CONN] unset. *)
Definition unconfigured : Process :=
  {| dotenv := Loaded;
     Getenv := fun k => if (k =? "MSSQL_CONN")%string then getenv k
                        else EmptyString;
     source_server := source_server (process None None None);
     target_server := server (Some [Example.stored_A1]) None None;
     elapsed := "41.7ms" |}.

End Fixture.

Section Pipeline.

(** [database/sql]'s [convertAssign] at the three destination types the
    holders use ([*string], [*time.Time], [*float64]).  The holders call
    it on non-NULL values only; which values it accepts is the library's
    business and is left open. *)
Variable convertAssign_string : driver_value -> result string.
Variable convertAssign_Time : driver_value -> result time.
Variable convertAssign_float64 : driver_value -> result float64.

(** The collation of the source server on [fsno]: [collate a b] when [a]
    sorts no later than [b]. *)
Variable collate : driver_value -> driver_value -> bool.

(** *** Decoding: the [Scan] methods of the holders and [Rows.Scan] *)

Definition NullString_Scan (value : driver_value) : result NullString :=
  if is_nil value then Ok {| ns_String := EmptyString; ns_Valid := false |}
  else s <- convertAssign_string value ;;
       Ok {| ns_String := s; ns_Valid := true |}.

Definition NullTime_Scan (value : driver_value) : result NullTime :=
  if is_nil value then Ok {| nt_Time := 0%Z; nt_Valid := false |}
  else t <- convertAssign_Time value ;;
       Ok {| nt_Time := t; nt_Valid := true |}.

Definition NullFloat64_Scan (value : driver_value) : result NullFloat64 :=
  if is_nil value then Ok {| nf_Float64 := 0%Z; nf_Valid := false |}
  else f <- convertAssign_float64 value ;;
       Ok {| nf_Float64 := f; nf_Valid := true |}.

(** One destination of [Rows.Scan]: the error names the column. *)
Definition scan_column {A} (rs : Rows) (i : nat)
    (scan : driver_value -> result A) (v : driver_value) : result A :=
  match scan v with
  | Ok a => Ok a
  | Err e =>
      Err ("sql: Scan error on column index " +++ fmt_d (Z.of_nat i) +++
           ", name " +++ quote +++ nth i (rows_columns rs) EmptyString +++
           quote +++ ": " +++ e)
  end.

(** [rows.Scan(&fsno, &salestype, &attachmentno, &customer, &region, &date,
    &code, &name, &measurementunit, &unitprice, &soldquantity, &netpay)]:
    twelve destinations, filled left to right from the columns of the
    current row; the first conversion that fails ends the call. *)
Definition Rows_Scan (rs : Rows) (cols : list driver_value) : result Locals :=
  match cols with
  | [c0; c1; c2; c3; c4; c5; c6; c7; c8; c9; c10; c11] =>
      fsno <- scan_column rs 0 NullString_Scan c0 ;;
      salestype <- scan_column rs 1 NullString_Scan c1 ;;
      attachmentno <- scan_column rs 2 NullString_Scan c2 ;;
      customer <- scan_column rs 3 NullString_Scan c3 ;;
      region <- scan_column rs 4 NullString_Scan c4 ;;
      date <- scan_column rs 5 NullTime_Scan c5 ;;
      code <- scan_column rs 6 NullString_Scan c6 ;;
      name <- scan_column rs 7 NullString_Scan c7 ;;
      measurementunit <- scan_column rs 8 NullString_Scan c8 ;;
      unitprice <- scan_column rs 9 NullFloat64_Scan c9 ;;
      soldquantity <- scan_column rs 10 NullFloat64_Scan c10 ;;
      netpay <- scan_column rs 11 NullFloat64_Scan c11 ;;
      Ok {| fsno := fsno; salestype := salestype;
            attachmentno := attachmentno; customer := customer;
            region := region; date := date; code := code; name := name;
            measurementunit := measurementunit; unitprice := unitprice;
            soldquantity := soldquantity; netpay := netpay |}
  | _ =>
      Err ("sql: expected " +++ fmt_d (Z.of_nat (List.length cols)) +++
           " destination arguments in Scan, not 12")
  end.

(** *** The source server: [sourceDB.Query] *)

Definition is_source_column (c : string) : bool :=
  existsb (String.eqb c) Sales.columns.

Definition source_field (c : string) (r : Sales.row) : driver_value :=
  match Sales.column c r with Some v => v | None => DNil end.

(** [ORDER BY c]: ascending under the collation; rows that tie stay in the
    order the server keeps them. *)
Fixpoint insert_row (c : string) (r : Sales.row) (l : list Sales.row)
    : list Sales.row :=
  match l with
  | [] => [r]
  | x :: l' =>
      if collate (source_field c r) (source_field c x)
      then r :: x :: l'
      else x :: insert_row c r l'
  end.

Definition order_by (c : string) (l : list Sales.row) : list Sales.row :=
  fold_right (insert_row c) [] l.

Definition select_rows (q : select_stmt) (l : list Sales.row)
    : list (list driver_value) :=
  let ordered :=
    match sel_order_by q with
    | Some c => order_by c l
    | None => l
    end in
  map (fun r => map (fun c => source_field c r) (sel_columns q)) ordered.

Definition DB_Query (db : SourceDB) (q : select_stmt) : result Rows :=
  match query_fault db with
  | Some e => Err e
  | None =>
      if negb (sel_from q =? sourceTableName)%string then
        Err ("mssql: Invalid object name '" +++ sel_from q +++ "'.")
      else if negb (forallb is_source_column
                      (sel_columns q ++
                       match sel_order_by q with Some c => [c] | None => [] end))
      then Err "mssql: Invalid column name."
      else
        let data := select_rows q (src_Sales db) in
        match cursor_fault db with
        | Some (n, e) =>
            if (n <=? List.length data)%nat
            then Ok {| rows_columns := sel_columns q;
                       rows_data := firstn n data;
                       rows_err := Some e |}
            else Ok {| rows_columns := sel_columns q;
                       rows_data := data;
                       rows_err := None |}
        | None =>
            Ok {| rows_columns := sel_columns q;
                  rows_data := data;
                  rows_err := None |}
        end
  end.

(** *** The target server: [Begin], [Prepare], [Exec], [Commit], [Rollback] *)

Definition DB_Begin (db : TargetDB) : result Session :=
  match begin_fault db with
  | Some e => Err e
  | None => Ok {| sess_committed := tgt_SalesDB db;
                  sess_pending := Some (tgt_SalesDB db) |}
  end.

(** What the server checks when it plans an insert. *)
Definition Tx_Prepare (db : TargetDB) (s : insert_stmt) : result insert_stmt :=
  match prepare_fault db with
  | Some e => Err e
  | None =>
      if negb (ins_table s =? targetTableName)%string then
        Err ("pq: relation " +++ quote +++ ins_table s +++ quote +++
             " does not exist")
      else if negb (forallb (fun c => existsb (String.eqb c) schema_columns)
                      (ins_columns s)) then
        Err "pq: column of relation does not exist"
      else if negb (List.length (ins_columns s) =? List.length (ins_values s))%nat then
        Err "pq: INSERT has more target columns than expressions"
      else if existsb (Nat.eqb 0) (ins_values s) then
        Err "pq: there is no parameter $0"
      else
        match ins_on_conflict_do_nothing s with
        | Some c =>
            if (c =? primary_key)%string then Ok s
            else Err ("pq: there is no unique or exclusion constraint " +++
                      "matching the ON CONFLICT specification")
        | None => Ok s
        end
  end.

Definition has_key (k : driver_value) (t : table) : bool :=
  existsb (fun r => driver_value_eqb (field primary_key r) k) t.

(** The row an insert builds: [$i] is the [i]-th argument, a column the
    statement does not name is NULL. *)
Definition new_row (s : insert_stmt) (args : list driver_value) : stored_row :=
  let given :=
    combine (ins_columns s)
            (map (fun i => nth (i - 1) args DNil) (ins_values s)) in
  map (fun c => (c, field c given)) schema_columns.

(** One [stmt.Exec(args...)] inside the transaction.  [fsno] is the
    PRIMARY KEY of the relation: a NULL key is refused, a key already
    present is a conflict, which [ON CONFLICT (fsno) DO NOTHING] turns
    into a successful no-op.  How the server fits a value to the type of
    its column is not modelled: a value the type refuses is one of the
    faults of the call, a value it accepts is stored as bound. *)
Definition Stmt_Exec (s : insert_stmt) (fault : option string)
    (sess : Session) (args : list driver_value) : result Session :=
  match sess_pending sess with
  | None => Err "sql: transaction has already been committed or rolled back"
  | Some t =>
      match fault with
      | Some e => Err e
      | None =>
          if negb (List.length args =? list_max (ins_values s))%nat then
            Err ("pq: got " +++ fmt_d (Z.of_nat (List.length args)) +++
                 " parameters but the statement requires " +++
                 fmt_d (Z.of_nat (list_max (ins_values s))))
          else
            let row := new_row s args in
            if is_nil (field primary_key row) then
              Err ("pq: null value in column " +++ quote +++ primary_key +++
                   quote +++ " violates not-null constraint")
            else if has_key (field primary_key row) t then
              match ins_on_conflict_do_nothing s with
              | Some _ => Ok sess
              | None =>
                  Err "pq: duplicate key value violates unique constraint"
              end
            else
              Ok {| sess_committed := sess_committed sess;
                    sess_pending := Some (t ++ [row]) |}
      end
  end.

Definition Tx_Commit (db : TargetDB) (sess : Session)
    : Session * option string :=
  match sess_pending sess with
  | None =>
      (sess, Some "sql: transaction has already been committed or rolled back")
  | Some t =>
      match commit_fault db with
      | Some e =>
          ({| sess_committed := sess_committed sess; sess_pending := None |},
           Some e)
      | None => ({| sess_committed := t; sess_pending := None |}, None)
      end
  end.

Definition Tx_Rollback (sess : Session) : Session :=
  {| sess_committed := sess_committed sess; sess_pending := None |}.

(** *** [runETL] *)

Definition query : select_stmt :=
  {| sel_columns :=
       ["fsno"; "salestype"; "attachmentno"; "customer"; "region"; "date";
        "code"; "name"; "measurementunit"; "unitprice"; "soldquantity";
        "netpay"];
     sel_from := sourceTableName;
     sel_order_by := Some "fsno" |}.

Definition insertSQL : insert_stmt :=
  {| ins_table := targetTableName;
     ins_columns :=
       ["fsno"; "salestype"; "attachmentno"; "customer"; "region";
        "sale_date"; "code"; "item_name"; "measurement_unit"; "unit_price";
        "sold_quantity"; "net_pay"];
     ins_values := [1; 2; 3; 4; 5; 6; 7; 8; 9; 10; 11; 12]%nat;
     ins_on_conflict_do_nothing := Some "fsno" |}.

(** The arguments of [stmt.Exec(fsno, salestype, attachmentno, customer,
    region, date, code, name, measurementunit, unitprice, soldquantity,
    netpay)], each through its [Value] method. *)
Definition exec_args (v : Locals) : list driver_value :=
  [ NullString_Value (fsno v); NullString_Value (salestype v);
    NullString_Value (attachmentno v); NullString_Value (customer v);
    NullString_Value (region v); NullTime_Value (date v);
    NullString_Value (code v); NullString_Value (name v);
    NullString_Value (measurementunit v); NullFloat64_Value (unitprice v);
    NullFloat64_Value (soldquantity v); NullFloat64_Value (netpay v) ].

(** The state of [for rows.Next() { ... }]: [totalRows], the transaction,
    and the faults the target still holds for the [Exec] calls to come. *)
Record Loop := {
  totalRows : Z;
  tx : Session;
  faults : list (option string);
  failure : option string
}.

(** The loop over the rows the cursor delivers.  It gives the events in
    the order they happen and the state at the exit; [failure] is set when
    the loop is left by the [return] after a failed [Exec]. *)
Fixpoint transfer (rs : Rows) (stmt : insert_stmt)
    (data : list (list driver_value)) (n : Z) (sess : Session)
    (fs : list (option string)) : list event * Loop :=
  match data with
  | [] => ([], {| totalRows := n; tx := sess; faults := fs; failure := None |})
  | cols :: data' =>
      match Rows_Scan rs cols with
      | Err e =>
          let '(evs, st) := transfer rs stmt data' n sess fs in
          (Log ("Error scanning source row (count " +++
                fmt_d (wrap_int (n + 1)) +++ "): " +++ e +++
                ". Skipping row.") :: evs, st)
      | Ok v =>
          match Stmt_Exec stmt (hd None fs) sess (exec_args v) with
          | Err e =>
              ([StmtExec (exec_args v);
                Log ("Failed to insert row with fsno " +++
                     ns_String (fsno v) +++ ": " +++ e)],
               {| totalRows := n; tx := sess; faults := tl fs;
                  failure := Some e |})
          | Ok sess' =>
              let '(evs, st) :=
                transfer rs stmt data' (wrap_int (n + 1)) sess' (tl fs) in
              (StmtExec (exec_args v) :: evs, st)
          end
      end
  end.

(** A [return] of [runETL]: the deferred calls run last in, first out;
    of these only [tx.Rollback()] touches the target, and only while the
    transaction is still open. *)
Definition run_deferred (deferred : list event) (sess : Session) : Session :=
  fold_left
    (fun s ev => match ev with TxRollback => Tx_Rollback s | _ => s end)
    deferred sess.

Definition leave (n : Z) (e : option string) (sess : Session)
    (evs deferred : list event) : Outcome :=
  {| count := n;
     err := e;
     committed := sess_committed (run_deferred deferred sess);
     trace := evs ++ deferred |}.

Definition runETL (sourceDB : SourceDB) (targetDB : TargetDB) : Outcome :=
  match DB_Query sourceDB query with
  | Err e =>
      {| count := 0;
         err := Some ("failed to query source data: " +++ e);
         committed := tgt_SalesDB targetDB;
         trace := [SourceQuery query] |}
  | Ok rows =>
      (* defer rows.Close() *)
      match DB_Begin targetDB with
      | Err e =>
          {| count := 0;
             err := Some ("failed to start target transaction: " +++ e);
             committed := tgt_SalesDB targetDB;
             trace := [SourceQuery query; TargetBegin; RowsClose] |}
      | Ok sess =>
          (* defer tx.Rollback() *)
          match Tx_Prepare targetDB insertSQL with
          | Err e =>
              leave 0 (Some ("failed to prepare insert statement: " +++ e))
                sess
                [SourceQuery query; TargetBegin; TxPrepare insertSQL]
                [TxRollback; RowsClose]
          | Ok stmt =>
              (* defer stmt.Close() *)
              let '(evs, st) :=
                transfer rows stmt (rows_data rows) 0 sess
                  (exec_faults targetDB) in
              let before :=
                [SourceQuery query; TargetBegin; TxPrepare insertSQL;
                 Log "Starting data transfer..."] ++ evs in
              match failure st with
              | Some e =>
                  leave (totalRows st)
                    (Some ("error executing insert statement: " +++ e))
                    (tx st) before [StmtClose; TxRollback; RowsClose]
              | None =>
                  match rows_err rows with
                  | Some e =>
                      leave (totalRows st)
                        (Some ("error iterating over source rows: " +++ e))
                        (tx st) before [StmtClose; TxRollback; RowsClose]
                  | None =>
                      match Tx_Commit targetDB (tx st) with
                      | (sess', Some e) =>
                          leave (totalRows st)
                            (Some ("failed to commit transaction: " +++ e))
                            sess' (before ++ [TxCommit])
                            [StmtClose; TxRollback; RowsClose]
                      | (sess', None) =>
                          leave (totalRows st) None sess'
                            (before ++ [TxCommit])
                            [StmtClose; TxRollback; RowsClose]
                      end
                  end
              end
          end
      end
  end.

(** *** Vocabulary of the statements *)

(** The rows of a cursor that [Rows.Scan] accepts, as the locals they
    leave, in cursor order. *)
Fixpoint decoded (rs : Rows) (data : list (list driver_value)) : list Locals :=
  match data with
  | [] => []
  | cols :: data' =>
      match Rows_Scan rs cols with
      | Ok v => v :: decoded rs data'
      | Err _ => decoded rs data'
      end
  end.

(** ... and how many it refuses. *)
Fixpoint refused (rs : Rows) (data : list (list driver_value)) : nat :=
  match data with
  | [] => 0
  | cols :: data' =>
      match Rows_Scan rs cols with
      | Ok _ => refused rs data'
      | Err _ => S (refused rs data')
      end
  end.

(** The hard error, if any, of handing [v] to the prepared insert when the
    target holds [fault] for that call: what [Stmt_Exec] answers in a
    transaction on an empty relation. *)
Definition hard_error (fault : option string) (v : Locals) : option string :=
  match Stmt_Exec insertSQL fault
          {| sess_committed := []; sess_pending := Some [] |} (exec_args v) with
  | Ok _ => None
  | Err e => Some e
  end.

(** No decoded row meets a hard error: the [i]-th is handed to the [i]-th
    [Exec] call. *)
Fixpoint no_hard_error (fs : list (option string)) (vs : list Locals) : bool :=
  match vs with
  | [] => true
  | v :: vs' =>
      match hard_error (hd None fs) v with
      | None => no_hard_error (tl fs) vs'
      | Some _ => false
      end
  end.

(** What a successful [Exec] of the insert does to the working copy. *)
Definition upsert (t : table) (v : Locals) : table :=
  if has_key (NullString_Value (fsno v)) t then t
  else t ++ [new_row insertSQL (exec_args v)].

(** [totalRows] after [k] executions of [totalRows++] from [n]. *)
Fixpoint count_after (n : Z) (k : nat) : Z :=
  match k with
  | O => n
  | S k' => count_after (wrap_int (n + 1)) k'
  end.

Definition open_tx (c t : table) : Session :=
  {| sess_committed := c; sess_pending := Some t |}.

(** The target of a later run: same server, the relation as a run left it. *)
Definition reloaded (targetDB : TargetDB) (t : table) : TargetDB :=
  {| tgt_SalesDB := t;
     begin_fault := begin_fault targetDB;
     prepare_fault := prepare_fault targetDB;
     exec_faults := exec_faults targetDB;
     commit_fault := commit_fault targetDB |}.

(** The Go types of the twelve destinations, in the order of the [Scan]
    call (the three [var] lines of the loop body). *)
Inductive dest := ToNullString | ToNullTime | ToNullFloat64.

Definition dests : list dest :=
  [ToNullString; ToNullString; ToNullString; ToNullString; ToNullString;
   ToNullTime; ToNullString; ToNullString; ToNullString;
   ToNullFloat64; ToNullFloat64; ToNullFloat64].

(** A source value on its way through a holder of type [d]: [Scan] in,
    [Value] out. *)
Definition through (d : dest) (c : driver_value) : result driver_value :=
  match d with
  | ToNullString => h <- NullString_Scan c ;; Ok (NullString_Value h)
  | ToNullTime => h <- NullTime_Scan c ;; Ok (NullTime_Value h)
  | ToNullFloat64 => h <- NullFloat64_Scan c ;; Ok (NullFloat64_Value h)
  end.

(** [r1] sorts no later than [r2] on column [c]. *)
Definition key_le (c : string) (r1 r2 : Sales.row) : Prop :=
  collate (source_field c r1) (source_field c r2) = true.

(** Projections of a trace. *)
Definition execs (evs : list event) : list (list driver_value) :=
  flat_map (fun ev => match ev with StmtExec a => [a] | _ => [] end) evs.

Definition log_lines (evs : list event) : list string :=
  flat_map (fun ev => match ev with Log l => [l] | _ => [] end) evs.

Definition target_calls (evs : list event) : list event :=
  filter (fun ev => match ev with
                    | TargetBegin | TxPrepare _ | StmtExec _ | StmtClose
                    | TxCommit | TxRollback => true
                    | _ => false
                    end) evs.

(** *** [ensureTargetTable] *)

Definition createTable : create_stmt :=
  {| ct_if_not_exists := true; ct_columns := createTableSQL |}.

(** [db.Exec] of a [CREATE TABLE]: the relation once the statement has run.
    With [IF NOT EXISTS] a relation that is there is left as it is. *)
Definition DB_Exec_create (db : TargetServer) (s : create_stmt) : result table :=
  match ddl_fault db with
  | Some e => Err e
  | None =>
      match srv_SalesDB db with
      | Some t =>
          if ct_if_not_exists s then Ok t
          else Err ("pq: relation " +++ quote +++ targetTableName +++ quote +++
                    " already exists")
      | None => Ok []
      end
  end.

(** The error returned, the relation afterwards, the lines logged. *)
Definition ensureTargetTable (db : TargetServer)
    : option string * option table * list string :=
  match DB_Exec_create db createTable with
  | Err e =>
      (Some ("failed to create target table: " +++ e), srv_SalesDB db, [])
  | Ok t =>
      (None, Some t,
       ["Target table '" +++ targetTableName +++
        "' is ready (fsno is PRIMARY KEY)."])
  end.

(** *** [main] *)

(** The handle [runETL] gets on the target.  Were the relation missing,
    the server would refuse to plan the insert. *)
Definition connect (srv : TargetServer) (rel : option table) : TargetDB :=
  {| tgt_SalesDB := match rel with Some t => t | None => [] end;
     begin_fault := srv_begin_fault srv;
     prepare_fault :=
       match rel, srv_prepare_fault srv with
       | None, None =>
           Some ("pq: relation " +++ quote +++ targetTableName +++ quote +++
                 " does not exist")
       | _, f => f
       end;
     exec_faults := srv_exec_faults srv;
     commit_fault := srv_commit_fault srv |}.

(** [log.Fatal] and [log.Fatalf]: the line is logged and the process exits
    with status 1 at once; deferred calls do not run. *)
Definition Fatal (lines : list string) (msg : string) (rel : option table)
    (ran : option Outcome) : Exit :=
  {| exit_code := 1;
     printed := lines ++ [msg];
     closed := [];
     relation := rel;
     pipeline := ran |}.

Definition main (p : Process) : Exit :=
  let src := source_server p in
  let tgt := target_server p in
  let l0 := ["Starting Go ETL Pipeline..."] in
  match dotenv p with
  | LoadError e false =>
      Fatal l0 ("Error loading .env file: " +++ e) (srv_SalesDB tgt) None
  | _ =>
      let mssqlDSN := Getenv p "MSSQL_CONN" in
      let postgresDSN := Getenv p "POSTGRES_CONN" in
      if (mssqlDSN =? EmptyString)%string || (postgresDSN =? EmptyString)%string
      then
        Fatal l0
          ("MSSQL_CONN and POSTGRES_CONN environment variables must be set. " +++
           "Check your .env file.")
          (srv_SalesDB tgt) None
      else
        match src_open_fault src with
        | Some e =>
            Fatal l0 ("Error connecting to MSSQL Source: " +++ e)
              (srv_SalesDB tgt) None
        | None =>
            (* defer sourceDB.Close() *)
            match src_ping_fault src with
            | Some e =>
                Fatal l0 ("Error pinging MSSQL Source: " +++ e)
                  (srv_SalesDB tgt) None
            | None =>
                let l1 := l0 ++ ["Successfully connected to MSSQL Source."] in
                match tgt_open_fault tgt with
                | Some e =>
                    Fatal l1 ("Error connecting to PostgreSQL Target: " +++ e)
                      (srv_SalesDB tgt) None
                | None =>
                    (* defer targetDB.Close() *)
                    match tgt_ping_fault tgt with
                    | Some e =>
                        Fatal l1 ("Error pinging PostgreSQL Target: " +++ e)
                          (srv_SalesDB tgt) None
                    | None =>
                        let l2 :=
                          l1 ++ ["Successfully connected to PostgreSQL Target."] in
                        match ensureTargetTable tgt with
                        | (Some e, rel, ls) =>
                            Fatal (l2 ++ ls)
                              ("Failed to prepare target table: " +++ e) rel None
                        | (None, rel, ls) =>
                            let l3 :=
                              l2 ++ ls ++
                              ["Starting ETL from " +++ sourceTableName +++
                               " to " +++ targetTableName +++ "..."] in
                            let out := runETL (src_handle src) (connect tgt rel) in
                            let l4 := l3 ++ log_lines (trace out) in
                            let rel' :=
                              option_map (fun _ => committed out) rel in
                            match err out with
                            | Some e =>
                                Fatal l4 ("ETL Process failed: " +++ e)
                                  rel' (Some out)
                            | None =>
                                {| exit_code := 0;
                                   printed :=
                                     l4 ++
                                     ["ETL Process successful! Migrated " +++
                                      fmt_d (count out) +++ " rows in " +++
                                      elapsed p +++ "."];
                                   closed := [TargetHandle; SourceHandle];
                                   relation := rel';
                                   pipeline := Some out |}
                            end
                        end
                    end
                end
            end
        end
  end.

(** *** More vocabulary *)

(** The rows of the source as [runETL] decodes them, in cursor order; none
    when the query is refused. *)
Definition delivered (sourceDB : SourceDB) : list Locals :=
  match DB_Query sourceDB query with
  | Ok rows => decoded rows (rows_data rows)
  | Err _ => []
  end.

(** The key a decoded row is bound with, and the row stored under a key. *)
Definition key_of (v : Locals) : driver_value := NullString_Value (fsno v).

Definition row_key (r : stored_row) : driver_value := field primary_key r.

Definition lookup_row (k : driver_value) (t : table) : option stored_row :=
  find (fun r => driver_value_eqb (row_key r) k) t.

(** The rows of a relation that may not exist yet. *)
Definition rows_of (rel : option table) : table :=
  match rel with Some t => t | None => [] end.

(** The server, and the process, of a later run: the same, but for the
    relation as a run left it; and the process with another outcome of
    loading [.env]. *)
Definition server_with (db : TargetServer) (rel : option table) : TargetServer :=
  {| srv_SalesDB := rel;
     tgt_open_fault := tgt_open_fault db;
     tgt_ping_fault := tgt_ping_fault db;
     ddl_fault := ddl_fault db;
     srv_begin_fault := srv_begin_fault db;
     srv_prepare_fault := srv_prepare_fault db;
     srv_exec_faults := srv_exec_faults db;
     srv_commit_fault := srv_commit_fault db |}.

Definition with_relation (p : Process) (rel : option table) : Process :=
  {| dotenv := dotenv p;
     Getenv := Getenv p;
     source_server := source_server p;
     target_server := server_with (target_server p) rel;
     elapsed := elapsed p |}.

Definition with_dotenv (p : Process) (d : dotenv_result) : Process :=
  {| dotenv := d;
     Getenv := Getenv p;
     source_server := source_server p;
     target_server := target_server p;
     elapsed := elapsed p |}.

(** The stages of [main] before the pipeline, in order, and the first that
    fails, if any. *)
Definition setup_failure (p : Process) : option string :=
  match dotenv p with
  | LoadError e false => Some ("Error loading .env file: " +++ e)
  | _ =>
      if (Getenv p "MSSQL_CONN" =? EmptyString)%string
         || (Getenv p "POSTGRES_CONN" =? EmptyString)%string
      then Some ("MSSQL_CONN and POSTGRES_CONN environment variables " +++
                 "must be set. Check your .env file.")
      else
        match src_open_fault (source_server p),
              src_ping_fault (source_server p),
              tgt_open_fault (target_server p),
              tgt_ping_fault (target_server p),
              ddl_fault (target_server p) with
        | Some e, _, _, _, _ => Some ("Error connecting to MSSQL Source: " +++ e)
        | None, Some e, _, _, _ => Some ("Error pinging MSSQL Source: " +++ e)
        | None, None, Some e, _, _ =>
            Some ("Error connecting to PostgreSQL Target: " +++ e)
        | None, None, None, Some e, _ =>
            Some ("Error pinging PostgreSQL Target: " +++ e)
        | None, None, None, None, Some e =>
            Some ("Failed to prepare target table: " +++
                  "failed to create target table: " +++ e)
        | None, None, None, None, None => None
        end
  end.

(** ** Proofs *)

(** *** The two statements, evaluated *)

Lemma DB_Query_query (db : SourceDB) :
  DB_Query db query =
  match query_fault db with
  | Some e => Err e
  | None =>
      let data := select_rows query (src_Sales db) in
      match cursor_fault db with
      | Some (n, e) =>
          if (n <=? List.length data)%nat
          then Ok {| rows_columns := sel_columns query;
                     rows_data := firstn n data; rows_err := Some e |}
          else Ok {| rows_columns := sel_columns query;
                     rows_data := data; rows_err := None |}
      | None => Ok {| rows_columns := sel_columns query;
                      rows_data := data; rows_err := None |}
      end
  end.
Proof. reflexivity. Qed.

Lemma Tx_Prepare_insertSQL (db : TargetDB) :
  Tx_Prepare db insertSQL =
  match prepare_fault db with Some e => Err e | None => Ok insertSQL end.
Proof. unfold Tx_Prepare. destruct (prepare_fault db); reflexivity. Qed.

Lemma new_row_insertSQL (v : Locals) :
  new_row insertSQL (exec_args v) =
  combine (ins_columns insertSQL) (exec_args v).
Proof. reflexivity. Qed.

Lemma key_insertSQL (v : Locals) :
  field primary_key (new_row insertSQL (exec_args v)) =
  NullString_Value (fsno v).
Proof. reflexivity. Qed.

Lemma Stmt_Exec_insertSQL (fault : option string) (c t : table) (v : Locals) :
  Stmt_Exec insertSQL fault
    {| sess_committed := c; sess_pending := Some t |} (exec_args v) =
  match fault with
  | Some e => Err e
  | None =>
      if ns_Valid (fsno v) then
        if has_key (DString (ns_String (fsno v))) t
        then Ok {| sess_committed := c; sess_pending := Some t |}
        else Ok {| sess_committed := c;
                   sess_pending := Some (t ++ [new_row insertSQL (exec_args v)]) |}
      else Err ("pq: null value in column " +++ quote +++ primary_key +++
                quote +++ " violates not-null constraint")
  end.
Proof.
  unfold Stmt_Exec. cbn [sess_pending sess_committed].
  destruct fault as [e|]; [reflexivity|].
  change (negb (List.length (exec_args v) =? list_max (ins_values insertSQL))%nat)
    with false.
  cbv iota. rewrite key_insertSQL.
  unfold NullString_Value. destruct (ns_Valid (fsno v)); reflexivity.
Qed.

Lemma hard_error_eq (fault : option string) (v : Locals) :
  hard_error fault v =
  match fault with
  | Some e => Some e
  | None =>
      if ns_Valid (fsno v) then None
      else Some ("pq: null value in column " +++ quote +++ primary_key +++
                 quote +++ " violates not-null constraint")
  end.
Proof.
  unfold hard_error. rewrite Stmt_Exec_insertSQL.
  destruct fault; [reflexivity|]. destruct (ns_Valid (fsno v)); reflexivity.
Qed.

Lemma Stmt_Exec_hard_error (fault : option string) (c t : table) (v : Locals) :
  Stmt_Exec insertSQL fault (open_tx c t) (exec_args v) =
  match hard_error fault v with
  | Some e => Err e
  | None => Ok (open_tx c (upsert t v))
  end.
Proof.
  unfold open_tx. rewrite Stmt_Exec_insertSQL, hard_error_eq.
  destruct fault; [reflexivity|].
  unfold upsert, NullString_Value.
  destruct (ns_Valid (fsno v)); [|reflexivity].
  destruct (has_key _ t); reflexivity.
Qed.

(** *** Integer bookkeeping *)

Lemma wrap_int_small (z : Z) :
  (- 2 ^ 63 <= z < 2 ^ 63)%Z -> wrap_int z = z.
Proof.
  intros H. unfold wrap_int.
  rewrite Z.mod_small by lia. lia.
Qed.

Lemma count_after_small (k : nat) (n : Z) :
  (0 <= n)%Z -> (n + Z.of_nat k < 2 ^ 63)%Z ->
  count_after n k = (n + Z.of_nat k)%Z.
Proof.
  revert n. induction k as [|k IH]; intros n Hn Hk.
  - cbn. lia.
  - cbn [count_after]. rewrite wrap_int_small by lia.
    rewrite IH by lia. lia.
Qed.

(** *** The loop, one iteration at a time *)

Lemma transfer_skip (rs : Rows) cols data n sess fs e :
  Rows_Scan rs cols = Err e ->
  transfer rs insertSQL (cols :: data) n sess fs =
  (Log ("Error scanning source row (count " +++ fmt_d (wrap_int (n + 1)) +++
        "): " +++ e +++ ". Skipping row.")
     :: fst (transfer rs insertSQL data n sess fs),
   snd (transfer rs insertSQL data n sess fs)).
Proof.
  intros H. cbn [transfer]. rewrite H.
  destruct (transfer rs insertSQL data n sess fs); reflexivity.
Qed.

Lemma transfer_exec (rs : Rows) cols data n c t fs v :
  Rows_Scan rs cols = Ok v ->
  hard_error (hd None fs) v = None ->
  transfer rs insertSQL (cols :: data) n (open_tx c t) fs =
  (StmtExec (exec_args v)
     :: fst (transfer rs insertSQL data (wrap_int (n + 1))
               (open_tx c (upsert t v)) (tl fs)),
   snd (transfer rs insertSQL data (wrap_int (n + 1))
          (open_tx c (upsert t v)) (tl fs))).
Proof.
  intros H He. cbn [transfer]. rewrite H, Stmt_Exec_hard_error, He.
  destruct (transfer rs insertSQL data _ _ _); reflexivity.
Qed.

Lemma transfer_abort (rs : Rows) cols data n c t fs v e :
  Rows_Scan rs cols = Ok v ->
  hard_error (hd None fs) v = Some e ->
  transfer rs insertSQL (cols :: data) n (open_tx c t) fs =
  ([StmtExec (exec_args v);
    Log ("Failed to insert row with fsno " +++ ns_String (fsno v) +++
         ": " +++ e)],
   {| totalRows := n; tx := open_tx c t; faults := tl fs;
      failure := Some e |}).
Proof.
  intros H He. cbn [transfer]. now rewrite H, Stmt_Exec_hard_error, He.
Qed.

(** *** The loop when no row meets a hard error *)

Lemma transfer_completes (rs : Rows) (data : list (list driver_value)) :
  forall n c t fs,
    no_hard_error fs (decoded rs data) = true ->
    let evs := fst (transfer rs insertSQL data n (open_tx c t) fs) in
    let st := snd (transfer rs insertSQL data n (open_tx c t) fs) in
    failure st = None /\
    totalRows st = count_after n (List.length (decoded rs data)) /\
    tx st = open_tx c (fold_left upsert (decoded rs data) t) /\
    execs evs = map exec_args (decoded rs data) /\
    List.length (log_lines evs) = refused rs data.
Proof.
  induction data as [|cols data IH]; intros n c t fs Hok.
  - cbn. repeat split.
  - cbn [decoded refused] in *.
    destruct (Rows_Scan rs cols) as [v|e] eqn:Hscan.
    + cbn [no_hard_error] in Hok.
      destruct (hard_error (hd None fs) v) eqn:He; [discriminate|].
      rewrite (transfer_exec _ _ _ _ _ _ _ _ Hscan He).
      cbn [fst snd].
      destruct (IH (wrap_int (n + 1)) c (upsert t v) (tl fs) Hok)
        as (Hf & Hn & Htx & Hex & Hlog).
      repeat split; try assumption.
      * cbn [execs flat_map app map]. f_equal. exact Hex.
    + rewrite (transfer_skip _ _ _ _ _ _ _ Hscan). cbn [fst snd].
      destruct (IH n c t fs Hok) as (Hf & Hn & Htx & Hex & Hlog).
      repeat split; try assumption.
      cbn [log_lines flat_map app List.length]. f_equal. exact Hlog.
Qed.

Lemma transfer_failure_None (rs : Rows) (data : list (list driver_value)) :
  forall n c t fs,
    failure (snd (transfer rs insertSQL data n (open_tx c t) fs)) = None ->
    no_hard_error fs (decoded rs data) = true.
Proof.
  induction data as [|cols data IH]; intros n c t fs H; [reflexivity|].
  cbn [decoded]. destruct (Rows_Scan rs cols) as [v|e] eqn:Hscan.
  - cbn [no_hard_error].
    destruct (hard_error (hd None fs) v) eqn:He.
    + rewrite (transfer_abort _ _ _ _ _ _ _ _ _ Hscan He) in H. discriminate.
    + rewrite (transfer_exec _ _ _ _ _ _ _ _ Hscan He) in H. eauto.
  - rewrite (transfer_skip _ _ _ _ _ _ _ Hscan) in H. eauto.
Qed.

(** *** The loop when a row meets a hard error *)

Lemma transfer_fails (rs : Rows) (data : list (list driver_value)) :
  forall k n c t fs v e,
    nth_error (decoded rs data) k = Some v ->
    no_hard_error fs (firstn k (decoded rs data)) = true ->
    hard_error (nth k fs None) v = Some e ->
    let evs := fst (transfer rs insertSQL data n (open_tx c t) fs) in
    let st := snd (transfer rs insertSQL data n (open_tx c t) fs) in
    failure st = Some e /\
    totalRows st = count_after n k /\
    sess_committed (tx st) = c /\
    execs evs = map exec_args (firstn (S k) (decoded rs data)) /\
    exists warnings,
      log_lines evs =
      warnings ++
      ["Failed to insert row with fsno " +++ ns_String (fsno v) +++ ": " +++ e].
Proof.
  induction data as [|cols data IH]; intros k n c t fs v e Hk Hpre He.
  - destruct k; discriminate.
  - cbn [decoded] in *.
    destruct (Rows_Scan rs cols) as [w|e'] eqn:Hscan.
    + destruct k as [|k].
      * cbn in Hk. injection Hk as ->.
        assert (He' : hard_error (hd None fs) v = Some e)
          by (destruct fs; exact He).
        rewrite (transfer_abort _ _ _ _ _ _ _ _ _ Hscan He').
        cbn. repeat split. now exists [].
      * cbn [nth_error] in Hk. cbn [firstn no_hard_error] in Hpre.
        destruct (hard_error (hd None fs) w) eqn:Hw; [discriminate|].
        rewrite (transfer_exec _ _ _ _ _ _ _ _ Hscan Hw). cbn [fst snd].
        assert (He' : hard_error (nth k (tl fs) None) v = Some e).
        { destruct fs; [destruct k|]; exact He. }
        destruct (IH k (wrap_int (n + 1)) c (upsert t w) (tl fs) v e
                    Hk Hpre He') as (Hf & Hn & Hc & Hex & Hlog).
        repeat split; try assumption.
        -- change (firstn (S (S k)) (w :: decoded rs data))
             with (w :: firstn (S k) (decoded rs data)).
           cbn [execs flat_map app map]. f_equal. exact Hex.
    + rewrite (transfer_skip _ _ _ _ _ _ _ Hscan). cbn [fst snd].
      destruct (IH k n c t fs v e Hk Hpre He) as (Hf & Hn & Hc & Hex & Hlog).
      repeat split; try assumption.
      destruct Hlog as [ws Hlog].
      exists (("Error scanning source row (count " +++
               fmt_d (wrap_int (n + 1)) +++ "): " +++ e' +++
               ". Skipping row.") :: ws).
      cbn [log_lines flat_map app]. f_equal. exact Hlog.
Qed.

(** The loop calls nothing on the target but [Exec]. *)
Lemma transfer_target_calls (rs : Rows) (stmt : insert_stmt)
    (data : list (list driver_value)) :
  forall n sess fs,
    target_calls (fst (transfer rs stmt data n sess fs)) =
    map StmtExec (execs (fst (transfer rs stmt data n sess fs))).
Proof.
  induction data as [|cols data IH]; intros n sess fs; [reflexivity|].
  cbn [transfer]. destruct (Rows_Scan rs cols) as [v|e].
  - destruct (Stmt_Exec stmt (hd None fs) sess (exec_args v)) as [sess'|e].
    + specialize (IH (wrap_int (n + 1)) sess' (tl fs)).
      destruct (transfer rs stmt data _ sess' (tl fs)) as [evs st].
      cbn in *. now rewrite IH.
    + reflexivity.
  - specialize (IH n sess fs).
    destruct (transfer rs stmt data n sess fs) as [evs st].
    cbn in *. exact IH.
Qed.

(** The committed relation is out of the loop's reach. *)
Lemma transfer_committed (rs : Rows) (stmt : insert_stmt)
    (data : list (list driver_value)) :
  forall n sess fs,
    sess_committed (tx (snd (transfer rs stmt data n sess fs))) =
    sess_committed sess.
Proof.
  induction data as [|cols data IH]; intros n sess fs; [reflexivity|].
  cbn [transfer]. destruct (Rows_Scan rs cols) as [v|e].
  - destruct (Stmt_Exec stmt (hd None fs) sess (exec_args v)) as [sess'|e] eqn:E.
    + specialize (IH (wrap_int (n + 1)) sess' (tl fs)).
      destruct (transfer rs stmt data _ sess' (tl fs)) as [evs st].
      cbn in *. rewrite IH. clear IH.
      unfold Stmt_Exec in E.
      destruct (sess_pending sess); [|discriminate].
      destruct (hd None fs); [discriminate|].
      destruct (negb _); [discriminate|].
      destruct (is_nil _); [discriminate|].
      destruct (has_key _ _).
      * destruct (ins_on_conflict_do_nothing stmt); [|discriminate].
        now injection E as <-.
      * now injection E as <-.
    + reflexivity.
  - specialize (IH n sess fs).
    destruct (transfer rs stmt data n sess fs) as [evs st].
    cbn in *. exact IH.
Qed.

(** *** [runETL] once the cursor, the transaction and the statement exist *)

Lemma runETL_entered (sourceDB : SourceDB) (targetDB : TargetDB) (rows : Rows) :
  DB_Query sourceDB query = Ok rows ->
  begin_fault targetDB = None ->
  prepare_fault targetDB = None ->
  runETL sourceDB targetDB =
  let T := tgt_SalesDB targetDB in
  let run := transfer rows insertSQL (rows_data rows) 0 (open_tx T T)
               (exec_faults targetDB) in
  let before :=
    [SourceQuery query; TargetBegin; TxPrepare insertSQL;
     Log "Starting data transfer..."] ++ fst run in
  match failure (snd run) with
  | Some e =>
      leave (totalRows (snd run))
        (Some ("error executing insert statement: " +++ e))
        (tx (snd run)) before [StmtClose; TxRollback; RowsClose]
  | None =>
      match rows_err rows with
      | Some e =>
          leave (totalRows (snd run))
            (Some ("error iterating over source rows: " +++ e))
            (tx (snd run)) before [StmtClose; TxRollback; RowsClose]
      | None =>
          leave (totalRows (snd run))
            (option_map (String.append "failed to commit transaction: ")
               (snd (Tx_Commit targetDB (tx (snd run)))))
            (fst (Tx_Commit targetDB (tx (snd run))))
            (before ++ [TxCommit]) [StmtClose; TxRollback; RowsClose]
      end
  end.
Proof.
  intros HQ HB HP. unfold runETL, DB_Begin.
  rewrite HQ, HB, Tx_Prepare_insertSQL, HP.
  fold (open_tx (tgt_SalesDB targetDB) (tgt_SalesDB targetDB)).
  cbv zeta.
  destruct (transfer rows insertSQL (rows_data rows) 0 _ _) as [evs st].
  cbn [fst snd].
  destruct (failure st); [reflexivity|].
  destruct (rows_err rows); [reflexivity|].
  destruct (Tx_Commit targetDB (tx st)) as [sess' [e|]]; reflexivity.
Qed.

Lemma target_calls_app (l1 l2 : list event) :
  target_calls (l1 ++ l2) = target_calls l1 ++ target_calls l2.
Proof. apply filter_app. Qed.

(** *** [runETL] when no row meets a hard error *)

Lemma execs_app (l1 l2 : list event) : execs (l1 ++ l2) = execs l1 ++ execs l2.
Proof. apply flat_map_app. Qed.

Lemma log_lines_app (l1 l2 : list event) :
  log_lines (l1 ++ l2) = log_lines l1 ++ log_lines l2.
Proof. apply flat_map_app. Qed.

Lemma Tx_Commit_open (db : TargetDB) (c t : table) :
  Tx_Commit db (open_tx c t) =
  match commit_fault db with
  | Some e => ({| sess_committed := c; sess_pending := None |}, Some e)
  | None => ({| sess_committed := t; sess_pending := None |}, None)
  end.
Proof. reflexivity. Qed.

Lemma runETL_completes (sourceDB : SourceDB) (targetDB : TargetDB) (rows : Rows) :
  DB_Query sourceDB query = Ok rows ->
  begin_fault targetDB = None ->
  prepare_fault targetDB = None ->
  no_hard_error (exec_faults targetDB) (decoded rows (rows_data rows)) = true ->
  let out := runETL sourceDB targetDB in
  let vs := decoded rows (rows_data rows) in
  count out = count_after 0 (List.length vs) /\
  err out =
    match rows_err rows with
    | Some e => Some ("error iterating over source rows: " +++ e)
    | None =>
        option_map (String.append "failed to commit transaction: ")
          (commit_fault targetDB)
    end /\
  committed out =
    match rows_err rows, commit_fault targetDB with
    | None, None => fold_left upsert vs (tgt_SalesDB targetDB)
    | _, _ => tgt_SalesDB targetDB
    end /\
  execs (trace out) = map exec_args vs /\
  List.length (log_lines (trace out)) = S (refused rows (rows_data rows)).
Proof.
  intros HQ HB HP Hok out vs. subst out vs.
  rewrite (runETL_entered _ _ _ HQ HB HP). cbv zeta.
  destruct (transfer_completes rows (rows_data rows) 0 (tgt_SalesDB targetDB)
              (tgt_SalesDB targetDB) (exec_faults targetDB) Hok)
    as (Hf & Hn & Htx & Hex & Hlog).
  rewrite Hf.
  destruct (rows_err rows) as [e|].
  - unfold leave. cbn [count err committed trace]. rewrite Htx.
    repeat split; try assumption.
    + rewrite !execs_app, Hex. cbn. now rewrite app_nil_r.
    + rewrite !log_lines_app, !length_app, Hlog. cbn. lia.
  - rewrite Htx, Tx_Commit_open. unfold leave.
    destruct (commit_fault targetDB) as [e|];
      cbn [fst snd count err committed trace option_map];
      (repeat split; try assumption);
      try (rewrite !execs_app, Hex; cbn; now rewrite !app_nil_r);
      try (rewrite !log_lines_app, !length_app, Hlog; cbn; lia).
Qed.

(** A run that returns no error went through every stage. *)
Lemma runETL_nil_inv (sourceDB : SourceDB) (targetDB : TargetDB) :
  err (runETL sourceDB targetDB) = None ->
  exists rows,
    DB_Query sourceDB query = Ok rows /\
    begin_fault targetDB = None /\
    prepare_fault targetDB = None /\
    no_hard_error (exec_faults targetDB) (decoded rows (rows_data rows)) = true /\
    rows_err rows = None /\
    commit_fault targetDB = None.
Proof.
  intros H.
  destruct (DB_Query sourceDB query) as [rows|e] eqn:HQ;
    [|unfold runETL in H; rewrite HQ in H; discriminate].
  destruct (begin_fault targetDB) as [e|] eqn:HB;
    [unfold runETL, DB_Begin in H; rewrite HQ, HB in H; discriminate|].
  destruct (prepare_fault targetDB) as [e|] eqn:HP.
  { unfold runETL, DB_Begin in H.
    rewrite HQ, HB, Tx_Prepare_insertSQL, HP in H. discriminate. }
  exists rows. rewrite (runETL_entered _ _ _ HQ HB HP) in H. cbv zeta in H.
  destruct (failure (snd (transfer rows insertSQL (rows_data rows) 0 _ _)))
    as [e|] eqn:Hf; [discriminate|].
  pose proof (transfer_failure_None _ _ _ _ _ _ Hf) as Hok.
  destruct (transfer_completes rows (rows_data rows) 0 (tgt_SalesDB targetDB)
              (tgt_SalesDB targetDB) (exec_faults targetDB) Hok)
    as (_ & _ & Htx & _).
  destruct (rows_err rows) as [e|]; [discriminate|].
  rewrite Htx, Tx_Commit_open in H. unfold leave in H.
  destruct (commit_fault targetDB) as [e|]; [discriminate|].
  repeat split; assumption.
Qed.

(** *** C1 *)

(** C1 (atomicity).  When the insert of the (k+1)-th decoded row is the
    first to return a hard error, [runETL] returns the count [k] next to
    the error, the target relation is what it was before the run, and the
    calls the target saw are: begin, prepare, [k+1] executions, close of the
    statement, rollback -- no commit. *)
Theorem C1_atomicity (sourceDB : SourceDB) (targetDB : TargetDB) (rows : Rows)
    (k : nat) (v : Locals) (e : string) :
  DB_Query sourceDB query = Ok rows ->
  begin_fault targetDB = None ->
  prepare_fault targetDB = None ->
  nth_error (decoded rows (rows_data rows)) k = Some v ->
  no_hard_error (exec_faults targetDB)
    (firstn k (decoded rows (rows_data rows))) = true ->
  hard_error (nth k (exec_faults targetDB) None) v = Some e ->
  (Z.of_nat k < 2 ^ 63)%Z ->
  let out := runETL sourceDB targetDB in
  count out = Z.of_nat k /\
  err out = Some ("error executing insert statement: " +++ e) /\
  committed out = tgt_SalesDB targetDB /\
  target_calls (trace out) =
    [TargetBegin; TxPrepare insertSQL] ++
    map StmtExec (map exec_args (firstn (S k) (decoded rows (rows_data rows)))) ++
    [StmtClose; TxRollback].
Proof.
  intros HQ HB HP Hk Hpre He Hbound out. subst out.
  rewrite (runETL_entered _ _ _ HQ HB HP). cbv zeta.
  destruct (transfer_fails rows (rows_data rows) k 0 (tgt_SalesDB targetDB)
              (tgt_SalesDB targetDB) (exec_faults targetDB) v e Hk Hpre He)
    as (Hf & Hn & Hc & Hex & _).
  rewrite Hf. unfold leave. cbn [count err committed trace].
  repeat split.
  - rewrite Hn. rewrite count_after_small; lia.
  - cbn [run_deferred fold_left Tx_Rollback sess_committed]. exact Hc.
  - rewrite !target_calls_app, transfer_target_calls, Hex. reflexivity.
Qed.

(** *** C2 *)

Lemma driver_value_eqb_refl (a : driver_value) : driver_value_eqb a a = true.
Proof.
  destruct a; cbn; auto using Z.eqb_refl, String.eqb_refl, Bool.eqb_reflx.
Qed.

Lemma has_key_app (k : driver_value) (t1 t2 : table) :
  has_key k (t1 ++ t2) = has_key k t1 || has_key k t2.
Proof. apply existsb_app. Qed.

Lemma has_key_upsert (k : driver_value) (t : table) (v : Locals) :
  has_key k t = true -> has_key k (upsert t v) = true.
Proof.
  intros H. unfold upsert.
  destruct (has_key (NullString_Value (fsno v)) t) eqn:E; [exact H|].
  now rewrite has_key_app, H.
Qed.

Lemma has_key_upsert_self (t : table) (v : Locals) :
  has_key (NullString_Value (fsno v)) (upsert t v) = true.
Proof.
  unfold upsert.
  destruct (has_key (NullString_Value (fsno v)) t) eqn:H; [exact H|].
  rewrite has_key_app, H. cbn [has_key existsb orb].
  now rewrite key_insertSQL, driver_value_eqb_refl.
Qed.

Lemma has_key_fold (k : driver_value) (vs : list Locals) :
  forall t, has_key k t = true -> has_key k (fold_left upsert vs t) = true.
Proof.
  induction vs as [|v vs IH]; intros t H; [exact H|].
  cbn [fold_left]. auto using has_key_upsert.
Qed.

(** After the load every decoded row finds its key in the relation. *)
Lemma has_key_loaded (vs : list Locals) :
  forall t v, In v vs ->
    has_key (NullString_Value (fsno v)) (fold_left upsert vs t) = true.
Proof.
  induction vs as [|w vs IH]; intros t v Hin; [destruct Hin|].
  cbn [fold_left]. destruct Hin as [->|Hin].
  - apply has_key_fold, has_key_upsert_self.
  - now apply IH.
Qed.

(** When every key is present already, the loop leaves the working copy as
    it found it -- whatever faults occur. *)
Lemma transfer_all_conflicts (rs : Rows) (data : list (list driver_value)) :
  forall n c t fs,
    (forall v, In v (decoded rs data) ->
       has_key (NullString_Value (fsno v)) t = true) ->
    tx (snd (transfer rs insertSQL data n (open_tx c t) fs)) = open_tx c t.
Proof.
  induction data as [|cols data IH]; intros n c t fs Hall; [reflexivity|].
  cbn [decoded] in Hall.
  destruct (Rows_Scan rs cols) as [v|e] eqn:Hscan.
  - destruct (hard_error (hd None fs) v) as [e|] eqn:He.
    + now rewrite (transfer_abort _ _ _ _ _ _ _ _ _ Hscan He).
    + rewrite (transfer_exec _ _ _ _ _ _ _ _ Hscan He). cbn [snd].
      assert (Hv : upsert t v = t).
      { unfold upsert. now rewrite (Hall v (or_introl eq_refl)). }
      rewrite Hv. apply IH. intros w Hw. apply Hall. now right.
  - rewrite (transfer_skip _ _ _ _ _ _ _ Hscan). cbn [snd].
    now apply IH.
Qed.

Lemma fold_upsert_all_conflicts (vs : list Locals) (t : table) :
  (forall v, In v vs -> has_key (NullString_Value (fsno v)) t = true) ->
  fold_left upsert vs t = t.
Proof.
  induction vs as [|v vs IH]; intros Hall; [reflexivity|].
  cbn [fold_left]. unfold upsert at 2.
  rewrite (Hall v (or_introl eq_refl)). apply IH.
  intros w Hw. apply Hall. now right.
Qed.

(** A second run never changes a relation the first one loaded. *)
Lemma runETL_loaded_fixed (sourceDB : SourceDB) (targetDB' : TargetDB)
    (rows : Rows) (t0 : table) :
  DB_Query sourceDB query = Ok rows ->
  tgt_SalesDB targetDB' = fold_left upsert (decoded rows (rows_data rows)) t0 ->
  committed (runETL sourceDB targetDB') = tgt_SalesDB targetDB'.
Proof.
  intros HQ HT.
  destruct (begin_fault targetDB') as [e|] eqn:HB;
    [unfold runETL, DB_Begin; now rewrite HQ, HB|].
  destruct (prepare_fault targetDB') as [e|] eqn:HP.
  { unfold runETL, DB_Begin.
    now rewrite HQ, HB, Tx_Prepare_insertSQL, HP. }
  rewrite (runETL_entered _ _ _ HQ HB HP). cbv zeta.
  assert (Htx : tx (snd (transfer rows insertSQL (rows_data rows) 0
                           (open_tx (tgt_SalesDB targetDB') (tgt_SalesDB targetDB'))
                           (exec_faults targetDB')))
                = open_tx (tgt_SalesDB targetDB') (tgt_SalesDB targetDB')).
  { apply transfer_all_conflicts. intros v Hv. rewrite HT.
    now apply has_key_loaded. }
  rewrite Htx, Tx_Commit_open.
  destruct (failure _); [reflexivity|].
  destruct (rows_err rows); [reflexivity|].
  destruct (commit_fault targetDB'); reflexivity.
Qed.

(** C2 (idempotence).  After a run that returned no error, a second run on
    the same source leaves the loaded relation exactly as it is, whatever
    faults the target raises this time; and on the same server it returns
    no error -- every insert meets its own key and does nothing -- and the
    same count. *)
Theorem C2_idempotent (sourceDB : SourceDB) (targetDB : TargetDB) :
  let first := runETL sourceDB targetDB in
  err first = None ->
  (forall targetDB',
      tgt_SalesDB targetDB' = committed first ->
      committed (runETL sourceDB targetDB') = committed first) /\
  (let second := runETL sourceDB (reloaded targetDB (committed first)) in
   err second = None /\
   count second = count first /\
   committed second = committed first).
Proof.
  intros first Hnil. subst first.
  destruct (runETL_nil_inv _ _ Hnil)
    as (rows & HQ & HB & HP & Hok & Herr & HC).
  destruct (runETL_completes _ _ _ HQ HB HP Hok)
    as (Hcount & _ & Hcommitted & _). cbv zeta in *.
  rewrite Herr, HC in Hcommitted.
  split.
  - intros targetDB' HT. rewrite <- HT.
    apply (runETL_loaded_fixed sourceDB targetDB' rows (tgt_SalesDB targetDB)).
    + exact HQ.
    + now rewrite HT.
  - destruct (runETL_completes sourceDB
                (reloaded targetDB (committed (runETL sourceDB targetDB)))
                rows HQ HB HP Hok)
      as (Hcount2 & Herr2 & Hcommitted2 & _). cbv zeta in *.
    cbn [reloaded commit_fault tgt_SalesDB] in *.
    rewrite Herr, HC in *. cbn [option_map] in Herr2.
    repeat split.
    + exact Herr2.
    + now rewrite Hcount2, Hcount.
    + rewrite Hcommitted2. apply fold_upsert_all_conflicts.
      intros v Hv. rewrite Hcommitted. now apply has_key_loaded.
Qed.

(** *** C3 *)

(** C3, as the code has it.  On a hard insert failure [runETL] writes a log
    line that names the [fsno] of the offending row and the driver's error,
    and returns to its caller the count of rows processed before the
    failure next to an error that wraps the driver's error and nothing
    else: the [fsno] is in the log, not in the error. *)
Theorem C3_failure_report (sourceDB : SourceDB) (targetDB : TargetDB)
    (rows : Rows) (k : nat) (v : Locals) (e : string) :
  DB_Query sourceDB query = Ok rows ->
  begin_fault targetDB = None ->
  prepare_fault targetDB = None ->
  nth_error (decoded rows (rows_data rows)) k = Some v ->
  no_hard_error (exec_faults targetDB)
    (firstn k (decoded rows (rows_data rows))) = true ->
  hard_error (nth k (exec_faults targetDB) None) v = Some e ->
  (Z.of_nat k < 2 ^ 63)%Z ->
  let out := runETL sourceDB targetDB in
  (count out, err out) =
    (Z.of_nat k, Some ("error executing insert statement: " +++ e)) /\
  last (log_lines (trace out)) EmptyString =
    "Failed to insert row with fsno " +++ ns_String (fsno v) +++ ": " +++ e.
Proof.
  intros HQ HB HP Hk Hpre He Hbound out. subst out.
  rewrite (runETL_entered _ _ _ HQ HB HP). cbv zeta.
  destruct (transfer_fails rows (rows_data rows) k 0 (tgt_SalesDB targetDB)
              (tgt_SalesDB targetDB) (exec_faults targetDB) v e Hk Hpre He)
    as (Hf & Hn & _ & _ & ws & Hlog).
  rewrite Hf. unfold leave. cbn [count err trace].
  split.
  - rewrite Hn, count_after_small by lia. reflexivity.
  - rewrite !log_lines_app, Hlog. cbn [log_lines flat_map app].
    rewrite app_nil_r.
    change ("Starting data transfer..." :: ws ++ ?x)
      with (("Starting data transfer..." :: ws) ++ x).
    apply last_last.
Qed.

(** *** C4 *)

Lemma decoded_refused (rs : Rows) (data : list (list driver_value)) :
  (List.length (decoded rs data) + refused rs data)%nat = List.length data.
Proof.
  induction data as [|cols data IH]; [reflexivity|].
  cbn [decoded refused]. destruct (Rows_Scan rs cols); cbn [List.length]; lia.
Qed.

(** C4 (row-skip isolation).  In a run with no hard error and no fault of
    either server, the rows [Scan] refuses change nothing but the log: the
    run returns no error, every decoded row is handed to the insert, in
    cursor order, and finds its key in the committed relation, each refused
    row leaves one warning after the opening line, and the count is the
    number of rows delivered less the number refused. *)
Theorem C4_row_skip_isolation (sourceDB : SourceDB) (targetDB : TargetDB)
    (rows : Rows) :
  DB_Query sourceDB query = Ok rows ->
  rows_err rows = None ->
  begin_fault targetDB = None ->
  prepare_fault targetDB = None ->
  commit_fault targetDB = None ->
  no_hard_error (exec_faults targetDB) (decoded rows (rows_data rows)) = true ->
  (Z.of_nat (List.length (rows_data rows)) < 2 ^ 63)%Z ->
  let out := runETL sourceDB targetDB in
  err out = None /\
  count out =
    (Z.of_nat (List.length (rows_data rows)) -
     Z.of_nat (refused rows (rows_data rows)))%Z /\
  execs (trace out) = map exec_args (decoded rows (rows_data rows)) /\
  (forall v, In v (decoded rows (rows_data rows)) ->
     has_key (NullString_Value (fsno v)) (committed out) = true) /\
  List.length (log_lines (trace out)) = S (refused rows (rows_data rows)).
Proof.
  intros HQ Herr HB HP HC Hok Hbound out. subst out.
  destruct (runETL_completes _ _ _ HQ HB HP Hok)
    as (Hcount & He & Hcommitted & Hex & Hlog). cbv zeta in *.
  rewrite Herr, HC in *. cbn [option_map] in He.
  pose proof (decoded_refused rows (rows_data rows)) as Hlen.
  repeat split; try assumption.
  - rewrite Hcount, count_after_small by lia. lia.
  - intros v Hv. rewrite Hcommitted. now apply has_key_loaded.
Qed.

(** *** C5 *)

(** C5 (count semantics).  When no decoded row meets a hard error, the
    count [runETL] returns is the number of rows handed to the prepared
    insert -- the decoded rows, not the refused ones -- whether or not the
    inserts found their key present: when every key is present already the
    relation is left as it was and the count is the same. *)
Theorem C5_count_semantics (sourceDB : SourceDB) (targetDB : TargetDB)
    (rows : Rows) :
  DB_Query sourceDB query = Ok rows ->
  begin_fault targetDB = None ->
  prepare_fault targetDB = None ->
  no_hard_error (exec_faults targetDB) (decoded rows (rows_data rows)) = true ->
  (Z.of_nat (List.length (rows_data rows)) < 2 ^ 63)%Z ->
  let out := runETL sourceDB targetDB in
  count out = Z.of_nat (List.length (execs (trace out))) /\
  count out = Z.of_nat (List.length (decoded rows (rows_data rows))) /\
  ((forall v, In v (decoded rows (rows_data rows)) ->
      has_key (NullString_Value (fsno v)) (tgt_SalesDB targetDB) = true) ->
   committed out = tgt_SalesDB targetDB).
Proof.
  intros HQ HB HP Hok Hbound out. subst out.
  destruct (runETL_completes _ _ _ HQ HB HP Hok)
    as (Hcount & _ & Hcommitted & Hex & _). cbv zeta in *.
  pose proof (decoded_refused rows (rows_data rows)) as Hlen.
  assert (Hc : count (runETL sourceDB targetDB) =
               Z.of_nat (List.length (decoded rows (rows_data rows)))).
  { rewrite Hcount, count_after_small by lia. lia. }
  repeat split.
  - now rewrite Hex, length_map.
  - exact Hc.
  - intros Hall. rewrite Hcommitted.
    destruct (rows_err rows); [reflexivity|].
    destruct (commit_fault targetDB); [reflexivity|].
    now apply fold_upsert_all_conflicts.
Qed.

(** *** C6 *)

Lemma scan_column_Ok {A} (rs : Rows) (i : nat)
    (scan : driver_value -> result A) (c : driver_value) (a : A) :
  scan_column rs i scan c = Ok a -> scan c = Ok a.
Proof. unfold scan_column. destruct (scan c); [auto|discriminate]. Qed.

Lemma Rows_Scan_12 (rs : Rows) c0 c1 c2 c3 c4 c5 c6 c7 c8 c9 c10 c11 (v : Locals) :
  Rows_Scan rs [c0; c1; c2; c3; c4; c5; c6; c7; c8; c9; c10; c11] = Ok v ->
  NullString_Scan c0 = Ok (fsno v) /\
  NullString_Scan c1 = Ok (salestype v) /\
  NullString_Scan c2 = Ok (attachmentno v) /\
  NullString_Scan c3 = Ok (customer v) /\
  NullString_Scan c4 = Ok (region v) /\
  NullTime_Scan c5 = Ok (date v) /\
  NullString_Scan c6 = Ok (code v) /\
  NullString_Scan c7 = Ok (name v) /\
  NullString_Scan c8 = Ok (measurementunit v) /\
  NullFloat64_Scan c9 = Ok (unitprice v) /\
  NullFloat64_Scan c10 = Ok (soldquantity v) /\
  NullFloat64_Scan c11 = Ok (netpay v).
Proof.
  intros H. cbn [Rows_Scan] in H. unfold bind in H.
  repeat match type of H with
         | context [scan_column ?r ?i ?f ?c] =>
             let E := fresh "E" in
             destruct (scan_column r i f c) eqn:E;
             [apply scan_column_Ok in E|discriminate]
         end.
  injection H as <-. cbn. repeat split; assumption.
Qed.

Lemma Rows_Scan_columns (rs : Rows) (cols : list driver_value) (v : Locals) :
  Rows_Scan rs cols = Ok v -> List.length cols = 12%nat.
Proof.
  intros H.
  do 12 (destruct cols as [|? cols]; [discriminate|]).
  destruct cols; [reflexivity|discriminate].
Qed.

Lemma NullString_through (c : driver_value) (h : NullString) :
  NullString_Scan c = Ok h -> is_nil (NullString_Value h) = is_nil c.
Proof.
  unfold NullString_Scan, NullString_Value, bind.
  destruct (is_nil c).
  - now intros [= <-].
  - destruct (convertAssign_string c); [|discriminate]. now intros [= <-].
Qed.

Lemma NullTime_through (c : driver_value) (h : NullTime) :
  NullTime_Scan c = Ok h -> is_nil (NullTime_Value h) = is_nil c.
Proof.
  unfold NullTime_Scan, NullTime_Value, bind.
  destruct (is_nil c).
  - now intros [= <-].
  - destruct (convertAssign_Time c); [|discriminate]. now intros [= <-].
Qed.

Lemma NullFloat64_through (c : driver_value) (h : NullFloat64) :
  NullFloat64_Scan c = Ok h -> is_nil (NullFloat64_Value h) = is_nil c.
Proof.
  unfold NullFloat64_Scan, NullFloat64_Value, bind.
  destruct (is_nil c).
  - now intros [= <-].
  - destruct (convertAssign_float64 c); [|discriminate]. now intros [= <-].
Qed.

(** C6, as the code has it.  For a row [Scan] accepts, position by
    position: the value bound to [$i] is NULL exactly when the source value
    is, and the row the insert builds holds, in its [i]-th column, the
    value bound to [$i] -- a NULL stays a NULL and is never replaced by the
    zero value its holder carries.  A row with a non-NULL [fsno] whose key
    is new is stored as built; a NULL [fsno] is bound as NULL too, but the
    primary key of the relation refuses it: that [Exec] is a hard error and
    nothing is stored. *)
Theorem C6_null_pass_through (rs : Rows) (cols : list driver_value) (v : Locals) :
  Rows_Scan rs cols = Ok v ->
  (forall i, (i < 12)%nat ->
     is_nil (nth i (exec_args v) DNil) = is_nil (nth i cols DNil) /\
     field (nth i (ins_columns insertSQL) EmptyString)
       (new_row insertSQL (exec_args v)) = nth i (exec_args v) DNil) /\
  (forall c t : table,
     Stmt_Exec insertSQL None (open_tx c t) (exec_args v) =
     if is_nil (nth 0 cols DNil) then
       Err ("pq: null value in column " +++ quote +++ primary_key +++
            quote +++ " violates not-null constraint")
     else if has_key (NullString_Value (fsno v)) t then Ok (open_tx c t)
     else Ok (open_tx c (t ++ [new_row insertSQL (exec_args v)]))).
Proof.
  intros H. pose proof (Rows_Scan_columns _ _ _ H) as Hlen.
  do 12 (destruct cols as [|? cols]; [discriminate|]).
  destruct cols; [clear Hlen|discriminate].
  apply Rows_Scan_12 in H.
  destruct H as (H0 & H1 & H2 & H3 & H4 & H5 & H6 & H7 & H8 & H9 & H10 & H11).
  split.
  - intros i Hi.
    do 12 (destruct i as [|i];
           [split; [cbn [nth exec_args];
                    first [now apply NullString_through
                          |now apply NullTime_through
                          |now apply NullFloat64_through]
                   |reflexivity]|]).
    lia.
  - intros c t. rewrite Stmt_Exec_hard_error, hard_error_eq.
    cbn [nth]. rewrite <- (NullString_through _ _ H0).
    unfold upsert, NullString_Value.
    destruct (ns_Valid (fsno v)); [|reflexivity].
    cbn [is_nil]. destruct (has_key _ t); reflexivity.
Qed.

(** *** C7 *)

(** C7 (extraction start failure).  When the source refuses the query,
    [runETL] returns 0 and the wrapped error at once: the query is the only
    call it has made, no call reached the target, no row was handed to the
    insert, and the target relation is untouched. *)
Theorem C7_query_failure (sourceDB : SourceDB) (targetDB : TargetDB) (e : string) :
  query_fault sourceDB = Some e ->
  let out := runETL sourceDB targetDB in
  out = {| count := 0;
           err := Some ("failed to query source data: " +++ e);
           committed := tgt_SalesDB targetDB;
           trace := [SourceQuery query] |} /\
  target_calls (trace out) = [] /\
  execs (trace out) = [].
Proof.
  intros H out. subst out. unfold runETL.
  rewrite DB_Query_query, H. repeat split.
Qed.

(** *** C8 *)

Lemma insert_row_perm (c : string) (r : Sales.row) (l : list Sales.row) :
  Permutation (insert_row c r l) (r :: l).
Proof.
  induction l as [|x l IH]; cbn [insert_row]; [reflexivity|].
  destruct (collate _ _); [reflexivity|].
  rewrite IH. apply perm_swap.
Qed.

Lemma order_by_perm (c : string) (l : list Sales.row) :
  Permutation (order_by c l) l.
Proof.
  induction l as [|r l IH]; [reflexivity|].
  cbn [order_by fold_right]. fold (order_by c l).
  rewrite insert_row_perm. now apply perm_skip.
Qed.

(** Two ascending arrangements of the same rows are one and the same list
    as soon as rows that tie on the key are equal. *)
Lemma sorted_perm_unique (c : string) (l1 : list Sales.row) :
  forall l2,
    StronglySorted (key_le c) l1 ->
    StronglySorted (key_le c) l2 ->
    Permutation l1 l2 ->
    (forall r1 r2, In r1 l1 -> In r2 l1 ->
       key_le c r1 r2 -> key_le c r2 r1 -> r1 = r2) ->
    l1 = l2.
Proof.
  induction l1 as [|x l1 IH]; intros l2 S1 S2 HP Hid.
  - now apply Permutation_nil in HP.
  - destruct l2 as [|y l2];
      [apply Permutation_sym, Permutation_nil in HP; discriminate|].
    apply StronglySorted_inv in S1 as [S1 F1].
    apply StronglySorted_inv in S2 as [S2 F2].
    rewrite Forall_forall in F1, F2.
    assert (Hx : In x (y :: l2))
      by (eapply Permutation_in; [exact HP|now left]).
    assert (Hy : In y (x :: l1))
      by (eapply Permutation_in; [apply Permutation_sym, HP|now left]).
    assert (Heq : x = y).
    { destruct Hx as [->|Hx]; [reflexivity|].
      destruct Hy as [->|Hy]; [reflexivity|].
      apply Hid; [now left|now right|now apply F1|now apply F2]. }
    subst y. f_equal.
    apply IH; try assumption.
    + now apply Permutation_cons_inv in HP.
    + intros r1 r2 H1 H2. apply Hid; now right.
Qed.

(** On any input the loop hands the decoded rows to the insert in cursor
    order, from the first on, without leaving one out. *)
Lemma transfer_execs_prefix (rs : Rows) (data : list (list driver_value)) :
  forall n c t fs,
    exists m,
      execs (fst (transfer rs insertSQL data n (open_tx c t) fs)) =
      map exec_args (firstn m (decoded rs data)).
Proof.
  induction data as [|cols data IH]; intros n c t fs.
  - now exists 0%nat.
  - cbn [decoded]. destruct (Rows_Scan rs cols) as [v|e] eqn:Hscan.
    + destruct (hard_error (hd None fs) v) as [e|] eqn:He.
      * rewrite (transfer_abort _ _ _ _ _ _ _ _ _ Hscan He).
        now exists 1%nat.
      * rewrite (transfer_exec _ _ _ _ _ _ _ _ Hscan He). cbn [fst].
        destruct (IH (wrap_int (n + 1)) c (upsert t v) (tl fs)) as [m Hm].
        exists (S m). cbn [execs flat_map app firstn map]. f_equal. exact Hm.
    + rewrite (transfer_skip _ _ _ _ _ _ _ Hscan). cbn [fst].
      destruct (IH n c t fs) as [m Hm]. exists m. exact Hm.
Qed.

Lemma runETL_execs_prefix (sourceDB : SourceDB) (targetDB : TargetDB)
    (rows : Rows) :
  DB_Query sourceDB query = Ok rows ->
  exists m,
    execs (trace (runETL sourceDB targetDB)) =
    map exec_args (firstn m (decoded rows (rows_data rows))).
Proof.
  intros HQ.
  destruct (begin_fault targetDB) as [e|] eqn:HB.
  { exists 0%nat. unfold runETL, DB_Begin. now rewrite HQ, HB. }
  destruct (prepare_fault targetDB) as [e|] eqn:HP.
  { exists 0%nat. unfold runETL, DB_Begin.
    now rewrite HQ, HB, Tx_Prepare_insertSQL, HP. }
  destruct (transfer_execs_prefix rows (rows_data rows) 0
              (tgt_SalesDB targetDB) (tgt_SalesDB targetDB)
              (exec_faults targetDB)) as [m Hm].
  exists m. rewrite (runETL_entered _ _ _ HQ HB HP). cbv zeta.
  destruct (failure _);
    [|destruct (rows_err rows)];
    unfold leave; cbn [trace]; rewrite !execs_app, Hm; cbn;
    now rewrite ?app_nil_r.
Qed.

Section Determinism.

(** The collation is a total preorder. *)
Hypothesis collate_total :
  forall a b, collate a b = true \/ collate b a = true.
Hypothesis collate_trans :
  forall a b c, collate a b = true -> collate b c = true -> collate a c = true.

Lemma insert_row_sorted (c : string) (r : Sales.row) (l : list Sales.row) :
  StronglySorted (key_le c) l -> StronglySorted (key_le c) (insert_row c r l).
Proof.
  induction l as [|x l IH]; intros S; cbn [insert_row].
  - constructor; constructor.
  - destruct (collate (source_field c r) (source_field c x)) eqn:E.
    + constructor; [exact S|].
      apply StronglySorted_inv in S as [_ F].
      constructor; [exact E|].
      rewrite Forall_forall in *. intros y Hy.
      unfold key_le in *. eauto.
    + apply StronglySorted_inv in S as [S F].
      constructor; [now apply IH|].
      eapply Permutation_Forall;
        [apply Permutation_sym, insert_row_perm|].
      constructor; [|exact F].
      unfold key_le.
      destruct (collate_total (source_field c r) (source_field c x)) as [H|H];
        [congruence|exact H].
Qed.

Lemma order_by_sorted (c : string) (l : list Sales.row) :
  StronglySorted (key_le c) (order_by c l).
Proof.
  induction l as [|r l IH]; [constructor|].
  cbn [order_by fold_right]. now apply insert_row_sorted.
Qed.

Lemma order_by_deterministic (c : string) (l1 l2 : list Sales.row) :
  Permutation l1 l2 ->
  (forall r1 r2, In r1 l1 -> In r2 l1 ->
     key_le c r1 r2 -> key_le c r2 r1 -> r1 = r2) ->
  order_by c l2 = order_by c l1.
Proof.
  intros HP Hid. symmetry.
  apply (sorted_perm_unique c); try apply order_by_sorted.
  - now rewrite !order_by_perm.
  - intros r1 r2 H1 H2. apply Hid.
    + eapply Permutation_in; [apply order_by_perm|exact H1].
    + eapply Permutation_in; [apply order_by_perm|exact H2].
Qed.

(** C8, as the code has it.  The query orders by [fsno] and by nothing
    else.  The cursor of a query that is not refused delivers the rows of
    the source -- all of them unless it breaks -- ascending on [fsno] under
    the collation, and [runETL] hands the rows it decodes to the insert in
    that order.  When [fsno] identifies the row -- source rows that tie on
    it are equal -- the order is fixed by the set of rows alone: however
    the server keeps them, two runs over the same rows get the same cursor
    and do the same thing, call for call.  Rows that differ and share an
    [fsno] come in the order the server keeps them. *)
Theorem C8_deterministic_order (s1 : SourceDB) (targetDB : TargetDB) :
  let sorted := order_by "fsno" (src_Sales s1) in
  let data :=
    map (fun r => map (fun c => source_field c r) (sel_columns query)) sorted in
  sel_order_by query = Some "fsno" /\
  StronglySorted
    (fun r1 r2 => collate (Sales.fsno r1) (Sales.fsno r2) = true) sorted /\
  Permutation sorted (src_Sales s1) /\
  (query_fault s1 = None ->
   exists rows,
     DB_Query s1 query = Ok rows /\
     rows_data rows =
       match cursor_fault s1 with
       | Some (n, _) => firstn n data
       | None => data
       end /\
     (exists m, execs (trace (runETL s1 targetDB)) =
                map exec_args (firstn m (decoded rows (rows_data rows)))) /\
     (begin_fault targetDB = None -> prepare_fault targetDB = None ->
      no_hard_error (exec_faults targetDB)
        (decoded rows (rows_data rows)) = true ->
      execs (trace (runETL s1 targetDB)) =
      map exec_args (decoded rows (rows_data rows)))) /\
  (forall s2,
     Permutation (src_Sales s1) (src_Sales s2) ->
     query_fault s2 = query_fault s1 ->
     cursor_fault s2 = cursor_fault s1 ->
     (forall r1 r2, In r1 (src_Sales s1) -> In r2 (src_Sales s1) ->
        collate (Sales.fsno r1) (Sales.fsno r2) = true ->
        collate (Sales.fsno r2) (Sales.fsno r1) = true -> r1 = r2) ->
     DB_Query s2 query = DB_Query s1 query /\
     runETL s2 targetDB = runETL s1 targetDB).
Proof.
  intros sorted data. subst sorted data.
  split; [reflexivity|].
  split; [exact (order_by_sorted "fsno" (src_Sales s1))|].
  split; [apply order_by_perm|].
  split.
  - intros HQ.
    assert (Hrows : exists rows,
              DB_Query s1 query = Ok rows /\
              rows_data rows =
                match cursor_fault s1 with
                | Some (n, _) =>
                    firstn n
                      (map (fun r => map (fun c => source_field c r)
                                       (sel_columns query))
                         (order_by "fsno" (src_Sales s1)))
                | None =>
                    map (fun r => map (fun c => source_field c r)
                                    (sel_columns query))
                      (order_by "fsno" (src_Sales s1))
                end).
    { rewrite DB_Query_query, HQ. cbv zeta.
      change (select_rows query (src_Sales s1))
        with (map (fun r => map (fun c => source_field c r) (sel_columns query))
                (order_by "fsno" (src_Sales s1))).
      destruct (cursor_fault s1) as [[n e]|]; [|eauto].
      destruct (n <=? _)%nat eqn:Hn; [eauto|].
      eexists. split; [reflexivity|]. cbn [rows_data].
      apply Nat.leb_gt in Hn. symmetry. apply firstn_all2. lia. }
    destruct Hrows as (rows & Hrows & Hdata).
    exists rows. split; [exact Hrows|]. split; [exact Hdata|].
    split.
    + exact (runETL_execs_prefix s1 targetDB rows Hrows).
    + intros HB HP Hok.
      now destruct (runETL_completes _ _ _ Hrows HB HP Hok) as (_ & _ & _ & H & _).
  - intros s2 HP HQ HC Hid.
    assert (Hord : order_by "fsno" (src_Sales s2) = order_by "fsno" (src_Sales s1))
      by (apply order_by_deterministic; assumption).
    assert (Hquery : DB_Query s2 query = DB_Query s1 query).
    { rewrite !DB_Query_query, HQ, HC. unfold select_rows.
      cbn [sel_order_by query]. now rewrite Hord. }
    split; [exact Hquery|]. unfold runETL. now rewrite Hquery.
Qed.

End Determinism.

(** *** C9 *)

(** C9 (positional columns).  The select list, the destinations of [Scan]
    and the parameters of the insert are twelve each and in one order:
    [fsno, salestype, attachmentno, customer, region, date, code, name,
    measurementunit, unitprice, soldquantity, netpay]; the insert names the
    twelve columns of the relation in schema order.  So for every row of
    the source that [Scan] accepts, each local holds the source column of
    its own name, and the row the insert builds gives each column of the
    relation the value of the local that belongs to it. *)
Theorem C9_positional_columns :
  sel_columns query =
    ["fsno"; "salestype"; "attachmentno"; "customer"; "region"; "date";
     "code"; "name"; "measurementunit"; "unitprice"; "soldquantity";
     "netpay"] /\
  List.length (sel_columns query) = 12%nat /\
  List.length dests = 12%nat /\
  ins_values insertSQL = seq 1 12 /\
  List.length (ins_columns insertSQL) = 12%nat /\
  ins_columns insertSQL = schema_columns /\
  forall (rs : Rows) (r : Sales.row) (v : Locals),
    Rows_Scan rs (map (fun c => source_field c r) (sel_columns query)) = Ok v ->
    (NullString_Scan (Sales.fsno r) = Ok (fsno v) /\
     NullString_Scan (Sales.salestype r) = Ok (salestype v) /\
     NullString_Scan (Sales.attachmentno r) = Ok (attachmentno v) /\
     NullString_Scan (Sales.customer r) = Ok (customer v) /\
     NullString_Scan (Sales.region r) = Ok (region v) /\
     NullTime_Scan (Sales.date r) = Ok (date v) /\
     NullString_Scan (Sales.code r) = Ok (code v) /\
     NullString_Scan (Sales.name r) = Ok (name v) /\
     NullString_Scan (Sales.measurementunit r) = Ok (measurementunit v) /\
     NullFloat64_Scan (Sales.unitprice r) = Ok (unitprice v) /\
     NullFloat64_Scan (Sales.soldquantity r) = Ok (soldquantity v) /\
     NullFloat64_Scan (Sales.netpay r) = Ok (netpay v)) /\
    new_row insertSQL (exec_args v) =
      [("fsno", NullString_Value (fsno v));
       ("salestype", NullString_Value (salestype v));
       ("attachmentno", NullString_Value (attachmentno v));
       ("customer", NullString_Value (customer v));
       ("region", NullString_Value (region v));
       ("sale_date", NullTime_Value (date v));
       ("code", NullString_Value (code v));
       ("item_name", NullString_Value (name v));
       ("measurement_unit", NullString_Value (measurementunit v));
       ("unit_price", NullFloat64_Value (unitprice v));
       ("sold_quantity", NullFloat64_Value (soldquantity v));
       ("net_pay", NullFloat64_Value (netpay v))] /\
    (forall i, (i < 12)%nat ->
       through (nth i dests ToNullString)
         (source_field (nth i (sel_columns query) EmptyString) r) =
       Ok (field (nth i (ins_columns insertSQL) EmptyString)
             (new_row insertSQL (exec_args v)))).
Proof.
  do 6 (split; [reflexivity|]).
  intros rs r v H.
  change (map (fun c => source_field c r) (sel_columns query))
    with [Sales.fsno r; Sales.salestype r; Sales.attachmentno r;
          Sales.customer r; Sales.region r; Sales.date r; Sales.code r;
          Sales.name r; Sales.measurementunit r; Sales.unitprice r;
          Sales.soldquantity r; Sales.netpay r] in H.
  apply Rows_Scan_12 in H.
  split; [exact H|]. split; [reflexivity|].
  destruct H as (H0 & H1 & H2 & H3 & H4 & H5 & H6 & H7 & H8 & H9 & H10 & H11).
  intros i Hi.
  do 12 (destruct i as [|i];
         [cbn -[NullString_Scan NullTime_Scan NullFloat64_Scan
                NullString_Value NullTime_Value NullFloat64_Value bind];
          first [rewrite H0|rewrite H1|rewrite H2|rewrite H3|rewrite H4
                |rewrite H5|rewrite H6|rewrite H7|rewrite H8|rewrite H9
                |rewrite H10|rewrite H11];
          reflexivity|]).
  lia.
Qed.

(** *** C10 *)

(** C10 (empty source).  When the query succeeds and the cursor delivers no
    row and reports no error, and the target raises no fault, [runETL]
    begins, prepares and commits the transaction and returns 0 and no
    error; the relation is as it was. *)
Theorem C10_empty_source (sourceDB : SourceDB) (targetDB : TargetDB) (rows : Rows) :
  DB_Query sourceDB query = Ok rows ->
  rows_data rows = [] ->
  rows_err rows = None ->
  begin_fault targetDB = None ->
  prepare_fault targetDB = None ->
  commit_fault targetDB = None ->
  runETL sourceDB targetDB =
  {| count := 0;
     err := None;
     committed := tgt_SalesDB targetDB;
     trace := [SourceQuery query; TargetBegin; TxPrepare insertSQL;
               Log "Starting data transfer..."; TxCommit;
               StmtClose; TxRollback; RowsClose] |}.
Proof.
  intros HQ Hdata Herr HB HP HC.
  rewrite (runETL_entered _ _ _ HQ HB HP), Hdata, Herr. cbv zeta.
  cbn [transfer fst snd failure tx totalRows].
  rewrite Tx_Commit_open, HC. reflexivity.
Qed.

(** ** Beyond the claims: every path of [runETL] *)

Lemma driver_value_eqb_eq (a b : driver_value) :
  driver_value_eqb a b = true <-> a = b.
Proof.
  split; [|intros ->; apply driver_value_eqb_refl].
  destruct a, b; cbn; try discriminate; intros H;
    first [apply Z.eqb_eq in H | apply String.eqb_eq in H
          | apply Bool.eqb_prop in H | idtac];
    congruence.
Qed.

Lemma has_key_In (k : driver_value) (t : table) :
  has_key k t = true <-> In k (map row_key t).
Proof.
  unfold has_key. rewrite existsb_exists, in_map_iff. unfold row_key.
  split; intros (r & H1 & H2).
  - exists r. split; [now apply driver_value_eqb_eq|exact H1].
  - exists r. split; [exact H2|now apply driver_value_eqb_eq].
Qed.

(** What a series of successful inserts adds to the working copy. *)
Lemma NoDup_snoc {A} (l : list A) (x : A) :
  NoDup l -> ~ In x l -> NoDup (l ++ [x]).
Proof.
  intros Hl Hx.
  apply (Permutation_NoDup (Permutation_cons_append l x)).
  now constructor.
Qed.

Lemma fold_upsert_adds (vs : list Locals) :
  forall t,
    exists added,
      fold_left upsert vs t = t ++ added /\
      (List.length added <= List.length vs)%nat /\
      Forall (fun r => exists v, In v vs /\
                         r = new_row insertSQL (exec_args v) /\
                         row_key r = key_of v /\
                         has_key (row_key r) t = false) added /\
      (NoDup (map row_key t) -> NoDup (map row_key (t ++ added))).
Proof.
  induction vs as [|v vs IH]; intros t.
  - exists []. rewrite app_nil_r.
    split; [reflexivity|]. split; [apply Nat.le_refl|].
    split; [constructor|auto].
  - cbn [fold_left].
    destruct (IH (upsert t v)) as (added & Heq & Hlen & Hall & Hnd).
    unfold upsert in *.
    destruct (has_key (NullString_Value (fsno v)) t) eqn:Hk.
    + exists added.
      split; [exact Heq|]. split; [cbn [List.length]; lia|].
      split; [|exact Hnd].
      eapply Forall_impl; [|exact Hall].
      intros r (w & Hw & Hr & Hkey & Hnew). exists w.
      split; [now right|]. auto.
    + exists (new_row insertSQL (exec_args v) :: added).
      split; [rewrite Heq, <- app_assoc; reflexivity|].
      split; [cbn [List.length]; lia|].
      split.
      * constructor.
        -- exists v. split; [now left|]. split; [reflexivity|].
           unfold row_key, key_of. rewrite key_insertSQL. auto.
        -- eapply Forall_impl; [|exact Hall].
           intros r (w & Hw & Hr & Hkey & Hnew). exists w.
           split; [now right|]. split; [exact Hr|]. split; [exact Hkey|].
           rewrite has_key_app in Hnew. now apply orb_false_iff in Hnew.
      * intros Ht.
        change (t ++ new_row insertSQL (exec_args v) :: added)
          with (t ++ [new_row insertSQL (exec_args v)] ++ added).
        rewrite app_assoc. apply Hnd.
        rewrite map_app. cbn [map]. apply NoDup_snoc; [exact Ht|].
        intros Hin. apply has_key_In in Hin.
        unfold row_key in Hin. rewrite key_insertSQL in Hin. congruence.
Qed.

(** The loop on any input: it hands a prefix of the decoded rows to the
    insert, all of them unless an [Exec] fails. *)
Lemma transfer_prefix (rs : Rows) (data : list (list driver_value)) :
  forall n c t fs,
    let st := snd (transfer rs insertSQL data n (open_tx c t) fs) in
    exists vs rest,
      decoded rs data = vs ++ rest /\
      tx st = open_tx c (fold_left upsert vs t) /\
      totalRows st = count_after n (List.length vs) /\
      (failure st = None -> rest = []).
Proof.
  induction data as [|cols data IH]; intros n c t fs st; subst st.
  - exists [], []. repeat split.
  - cbn [decoded]. destruct (Rows_Scan rs cols) as [v|e] eqn:Hscan.
    + destruct (hard_error (hd None fs) v) as [e|] eqn:He.
      * rewrite (transfer_abort _ _ _ _ _ _ _ _ _ Hscan He).
        exists [], (v :: decoded rs data).
        split; [reflexivity|]. split; [reflexivity|].
        split; [reflexivity|]. discriminate.
      * rewrite (transfer_exec _ _ _ _ _ _ _ _ Hscan He). cbn [snd].
        destruct (IH (wrap_int (n + 1)) c (upsert t v) (tl fs))
          as (vs & rest & Hd & Htx & Hn & Hf).
        exists (v :: vs), rest.
        split; [now rewrite Hd|]. split; [exact Htx|].
        split; [exact Hn|exact Hf].
    + rewrite (transfer_skip _ _ _ _ _ _ _ Hscan). cbn [snd].
      apply IH.
Qed.

(** Every path of [runETL] at once: the count is the number of rows handed
    to the insert with success, a prefix of the decoded rows; the relation
    is the load of these rows if no error is returned and is untouched
    otherwise. *)
Lemma runETL_paths (sourceDB : SourceDB) (targetDB : TargetDB) :
  let out := runETL sourceDB targetDB in
  exists vs rest,
    delivered sourceDB = vs ++ rest /\
    count out = count_after 0 (List.length vs) /\
    committed out =
      match err out with
      | None => fold_left upsert vs (tgt_SalesDB targetDB)
      | Some _ => tgt_SalesDB targetDB
      end /\
    (err out = None -> rest = []).
Proof.
  intros out. subst out. unfold delivered.
  destruct (DB_Query sourceDB query) as [rows|e] eqn:HQ.
  2:{ exists [], []. unfold runETL. rewrite HQ.
      split; [reflexivity|]. split; [reflexivity|].
      split; [reflexivity|discriminate]. }
  destruct (begin_fault targetDB) as [e|] eqn:HB.
  { exists [], (decoded rows (rows_data rows)).
    unfold runETL, DB_Begin. rewrite HQ, HB.
    split; [reflexivity|]. split; [reflexivity|].
    split; [reflexivity|discriminate]. }
  destruct (prepare_fault targetDB) as [e|] eqn:HP.
  { exists [], (decoded rows (rows_data rows)).
    unfold runETL, DB_Begin. rewrite HQ, HB, Tx_Prepare_insertSQL, HP.
    split; [reflexivity|]. split; [reflexivity|].
    split; [reflexivity|discriminate]. }
  rewrite (runETL_entered _ _ _ HQ HB HP). cbv zeta.
  destruct (transfer_prefix rows (rows_data rows) 0 (tgt_SalesDB targetDB)
              (tgt_SalesDB targetDB) (exec_faults targetDB))
    as (vs & rest & Hd & Htx & Hn & Hf).
  exists vs, rest. split; [exact Hd|].
  rewrite Htx, Tx_Commit_open.
  destruct (failure _) as [e|].
  { unfold leave. cbn [count err committed].
    split; [exact Hn|]. split; [reflexivity|discriminate]. }
  destruct (rows_err rows) as [e|].
  { unfold leave. cbn [count err committed].
    split; [exact Hn|]. split; [reflexivity|discriminate]. }
  destruct (commit_fault targetDB) as [e|];
    unfold leave; cbn [fst snd count err committed option_map];
    (split; [exact Hn|]); (split; [reflexivity|]).
  - discriminate.
  - intros _. now apply Hf.
Qed.

(** X1.  Whatever error [runETL] returns -- a refused query, a transaction
    that does not start, a statement that is not prepared, a failed insert,
    a broken cursor, a failed commit -- the target relation is what it was
    before the run. *)
Theorem X1_error_commits_nothing (sourceDB : SourceDB) (targetDB : TargetDB)
    (e : string) :
  err (runETL sourceDB targetDB) = Some e ->
  committed (runETL sourceDB targetDB) = tgt_SalesDB targetDB.
Proof.
  intros He.
  destruct (runETL_paths sourceDB targetDB) as (vs & rest & _ & _ & Hc & _).
  cbv zeta in Hc. now rewrite He in Hc.
Qed.

(** In a run that returns no error every decoded row has a key. *)
Lemma no_hard_error_valid (vs : list Locals) :
  forall fs, no_hard_error fs vs = true ->
    forall v, In v vs -> is_nil (key_of v) = false.
Proof.
  induction vs as [|w ws IH]; intros fs Hok v Hin; [destruct Hin|].
  cbn [no_hard_error] in Hok.
  destruct (hard_error (hd None fs) w) eqn:Hw; [discriminate|].
  destruct Hin as [<-|Hin]; [|eauto].
  rewrite hard_error_eq in Hw. unfold key_of, NullString_Value.
  destruct (hd None fs); [discriminate|].
  destruct (ns_Valid (fsno w)); [reflexivity|discriminate].
Qed.

Lemma runETL_added (sourceDB : SourceDB) (targetDB : TargetDB) :
  let out := runETL sourceDB targetDB in
  exists added,
    committed out = tgt_SalesDB targetDB ++ added /\
    (Z.of_nat (List.length added) <= count out \/
     (2 ^ 63 <= Z.of_nat (List.length (delivered sourceDB))))%Z /\
    Forall (fun r => exists v, In v (delivered sourceDB) /\
                       r = new_row insertSQL (exec_args v) /\
                       row_key r = key_of v /\
                       is_nil (row_key r) = false /\
                       has_key (row_key r) (tgt_SalesDB targetDB) = false)
      added /\
    (NoDup (map row_key (tgt_SalesDB targetDB)) ->
     NoDup (map row_key (committed out))).
Proof.
  intros out. subst out.
  destruct (runETL_paths sourceDB targetDB) as (vs & rest & Hd & Hn & Hc & Hr).
  cbv zeta in *. rewrite Hc.
  destruct (err (runETL sourceDB targetDB)) as [e|] eqn:He.
  - exists []. rewrite app_nil_r. split; [reflexivity|].
    split.
    { destruct (Z_lt_le_dec (Z.of_nat (List.length (delivered sourceDB))) (2 ^ 63));
        [left|now right].
      rewrite Hn, count_after_small; cbn [List.length]; try lia.
      rewrite Hd, length_app in l. lia. }
    split; [constructor|auto].
  - rewrite (Hr eq_refl), app_nil_r in Hd. subst vs.
    destruct (fold_upsert_adds (delivered sourceDB) (tgt_SalesDB targetDB))
      as (added & Heq & Hlen & Hall & Hnd).
    exists added. split; [exact Heq|].
    split.
    { destruct (Z_lt_le_dec (Z.of_nat (List.length (delivered sourceDB))) (2 ^ 63));
        [left|now right].
      rewrite Hn, count_after_small; lia. }
    split; [|now rewrite <- Heq in Hnd].
    destruct (runETL_nil_inv _ _ He) as (rows & HQ & _ & _ & Hok & _).
    assert (Hvalid : forall v, In v (delivered sourceDB) ->
                       is_nil (key_of v) = false).
    { unfold delivered. rewrite HQ. eapply no_hard_error_valid, Hok. }
    eapply Forall_impl; [|exact Hall].
    intros r (v & Hv & Hrow & Hkey & Hnew). exists v.
    split; [exact Hv|]. split; [exact Hrow|]. split; [exact Hkey|].
    split; [|exact Hnew]. rewrite Hkey. now apply Hvalid.
Qed.

(** X2.  On every run the relation only grows at its end: the rows it held
    stay where they are, unchanged, and each row added is the row built
    from a decoded source row, with that row's key, a key that is not NULL
    and that the relation did not hold before. *)
Theorem X2_relation_only_grows (sourceDB : SourceDB) (targetDB : TargetDB) :
  let out := runETL sourceDB targetDB in
  exists added,
    committed out = tgt_SalesDB targetDB ++ added /\
    Forall (fun r => exists v, In v (delivered sourceDB) /\
                       r = new_row insertSQL (exec_args v) /\
                       row_key r = key_of v /\
                       is_nil (row_key r) = false /\
                       has_key (row_key r) (tgt_SalesDB targetDB) = false)
      added.
Proof.
  intros out.
  destruct (runETL_added sourceDB targetDB) as (added & H1 & _ & H2 & _).
  exists added. split; assumption.
Qed.

(** X3.  [runETL] keeps the primary key of the relation: if no two rows of
    the relation share a key and no key is NULL before the run, the same
    holds after it, whatever the source holds (duplicate or NULL [fsno]
    included) and whatever faults occur. *)
Theorem X3_primary_key_kept (sourceDB : SourceDB) (targetDB : TargetDB) :
  NoDup (map row_key (tgt_SalesDB targetDB)) ->
  Forall (fun r => is_nil (row_key r) = false) (tgt_SalesDB targetDB) ->
  let out := runETL sourceDB targetDB in
  NoDup (map row_key (committed out)) /\
  Forall (fun r => is_nil (row_key r) = false) (committed out).
Proof.
  intros Hnd Hnn out.
  destruct (runETL_added sourceDB targetDB) as (added & H1 & _ & H2 & H3).
  split; [now apply H3|].
  subst out. rewrite H1. apply Forall_app. split; [exact Hnn|].
  eapply Forall_impl; [|exact H2].
  now intros r (v & _ & _ & _ & H & _).
Qed.

Lemma lookup_row_app (k : driver_value) (t1 t2 : table) :
  lookup_row k (t1 ++ t2) =
  match lookup_row k t1 with
  | Some r => Some r
  | None => lookup_row k t2
  end.
Proof.
  unfold lookup_row. induction t1 as [|r t1 IH]; [reflexivity|].
  cbn [app find]. destruct (driver_value_eqb (row_key r) k); auto.
Qed.

Lemma lookup_row_None (k : driver_value) (t : table) :
  lookup_row k t = None <-> has_key k t = false.
Proof.
  unfold lookup_row, has_key, row_key. induction t as [|r t IH]; [easy|].
  cbn [find existsb]. destruct (driver_value_eqb (field primary_key r) k);
    cbn [orb]; [easy|exact IH].
Qed.

(** X4.  A row stored under a key before the run is the row stored under
    that key after it: an insert that meets its key never updates. *)
Theorem X4_never_updates (sourceDB : SourceDB) (targetDB : TargetDB)
    (k : driver_value) (r : stored_row) :
  lookup_row k (tgt_SalesDB targetDB) = Some r ->
  lookup_row k (committed (runETL sourceDB targetDB)) = Some r.
Proof.
  intros H.
  destruct (runETL_added sourceDB targetDB) as (added & H1 & _).
  cbv zeta in H1. now rewrite H1, lookup_row_app, H.
Qed.

(** Looking a key up after a series of successful inserts. *)
Lemma lookup_row_fold (k : driver_value) (vs : list Locals) :
  forall t,
    lookup_row k (fold_left upsert vs t) =
    match lookup_row k t with
    | Some r => Some r
    | None =>
        option_map (fun w => new_row insertSQL (exec_args w))
          (find (fun w => driver_value_eqb (key_of w) k) vs)
    end.
Proof.
  induction vs as [|v vs IH]; intros t.
  - cbn [fold_left find option_map]. destruct (lookup_row k t); reflexivity.
  - cbn [fold_left find]. rewrite IH. unfold upsert.
    fold (key_of v).
    destruct (has_key (key_of v) t) eqn:Hk.
    + destruct (lookup_row k t) eqn:Hl; [reflexivity|].
      apply lookup_row_None in Hl.
      destruct (driver_value_eqb (key_of v) k) eqn:E; [|reflexivity].
      apply driver_value_eqb_eq in E. congruence.
    + rewrite lookup_row_app.
      destruct (lookup_row k t); [reflexivity|].
      unfold lookup_row at 1. cbn [find]. unfold row_key.
      rewrite key_insertSQL. fold (key_of v).
      destruct (driver_value_eqb (key_of v) k); reflexivity.
Qed.

(** X5.  Insert, then look up.  After a run that returns no error, the row
    found under a key the relation did not hold before is the row built
    from the first decoded source row that carries this key -- later rows
    with the same [fsno] are skipped -- and no row is found when no source
    row carries it. *)
Theorem X5_first_row_wins (sourceDB : SourceDB) (targetDB : TargetDB)
    (k : driver_value) :
  err (runETL sourceDB targetDB) = None ->
  has_key k (tgt_SalesDB targetDB) = false ->
  lookup_row k (committed (runETL sourceDB targetDB)) =
  option_map (fun w => new_row insertSQL (exec_args w))
    (find (fun w => driver_value_eqb (key_of w) k) (delivered sourceDB)).
Proof.
  intros He Hk.
  destruct (runETL_paths sourceDB targetDB) as (vs & rest & Hd & _ & Hc & Hr).
  cbv zeta in *. rewrite He in Hc.
  rewrite (Hr He), app_nil_r in Hd. subst vs.
  rewrite Hc, lookup_row_fold.
  apply lookup_row_None in Hk. now rewrite Hk.
Qed.

(** X6.  The count never exceeds the number of decoded rows and is never
    less than the number of rows the run added to the relation: rows that
    met their key are counted, rows that were not handed to the insert are
    not. *)
Theorem X6_count_bounds (sourceDB : SourceDB) (targetDB : TargetDB) :
  (Z.of_nat (List.length (delivered sourceDB)) < 2 ^ 63)%Z ->
  let out := runETL sourceDB targetDB in
  (Z.of_nat (List.length (committed out)) -
   Z.of_nat (List.length (tgt_SalesDB targetDB)) <= count out)%Z /\
  (count out <= Z.of_nat (List.length (delivered sourceDB)))%Z.
Proof.
  intros Hb out. subst out.
  destruct (runETL_added sourceDB targetDB) as (added & H1 & H2 & _).
  destruct (runETL_paths sourceDB targetDB) as (vs & rest & Hd & Hn & _).
  cbv zeta in *. split.
  - rewrite H1, length_app. destruct H2 as [H2|H2]; lia.
  - rewrite Hd, length_app in *.
    rewrite Hn, count_after_small; lia.
Qed.

(** X7.  Failures before the loop.  When the transaction cannot be begun,
    [runETL] returns 0 and the wrapped error having called nothing but the
    query, [Begin] and the deferred [rows.Close]; when the statement cannot
    be prepared, it returns 0 and the wrapped error, rolls the transaction
    back and closes the cursor.  In both cases no row is scanned or handed
    to the insert, whatever the source holds. *)
Theorem X7_setup_failure (sourceDB : SourceDB) (targetDB : TargetDB)
    (rows : Rows) (e : string) :
  DB_Query sourceDB query = Ok rows ->
  (begin_fault targetDB = Some e ->
   runETL sourceDB targetDB =
   {| count := 0;
      err := Some ("failed to start target transaction: " +++ e);
      committed := tgt_SalesDB targetDB;
      trace := [SourceQuery query; TargetBegin; RowsClose] |}) /\
  (begin_fault targetDB = None -> prepare_fault targetDB = Some e ->
   runETL sourceDB targetDB =
   {| count := 0;
      err := Some ("failed to prepare insert statement: " +++ e);
      committed := tgt_SalesDB targetDB;
      trace := [SourceQuery query; TargetBegin; TxPrepare insertSQL;
                TxRollback; RowsClose] |}).
Proof.
  intros HQ. split.
  - intros HB. unfold runETL, DB_Begin. now rewrite HQ, HB.
  - intros HB HP. unfold runETL, DB_Begin.
    now rewrite HQ, HB, Tx_Prepare_insertSQL, HP.
Qed.


(** The calls on the target when the loop runs to its end. *)
Lemma runETL_target_calls (sourceDB : SourceDB) (targetDB : TargetDB)
    (rows : Rows) :
  DB_Query sourceDB query = Ok rows ->
  begin_fault targetDB = None ->
  prepare_fault targetDB = None ->
  no_hard_error (exec_faults targetDB) (decoded rows (rows_data rows)) = true ->
  target_calls (trace (runETL sourceDB targetDB)) =
  [TargetBegin; TxPrepare insertSQL] ++
  map StmtExec (map exec_args (decoded rows (rows_data rows))) ++
  match rows_err rows with
  | Some _ => [StmtClose; TxRollback]
  | None => [TxCommit; StmtClose; TxRollback]
  end.
Proof.
  intros HQ HB HP Hok.
  rewrite (runETL_entered _ _ _ HQ HB HP). cbv zeta.
  destruct (transfer_completes rows (rows_data rows) 0 (tgt_SalesDB targetDB)
              (tgt_SalesDB targetDB) (exec_faults targetDB) Hok)
    as (Hf & _ & _ & Hex & _).
  rewrite Hf. destruct (rows_err rows); unfold leave; cbn [trace];
    rewrite !target_calls_app, transfer_target_calls, Hex;
    cbn [target_calls filter app]; rewrite <- ?app_assoc; reflexivity.
Qed.

(** X8.  A cursor that breaks.  When the cursor stops with an error after
    delivering some rows, and no insert failed, [runETL] has handed every
    decoded row among them to the insert and returns their number -- and
    the wrapped cursor error; nothing of it is committed: the transaction
    is rolled back without a call to [Commit]. *)
Theorem X8_cursor_error (sourceDB : SourceDB) (targetDB : TargetDB)
    (rows : Rows) (e : string) :
  DB_Query sourceDB query = Ok rows ->
  rows_err rows = Some e ->
  begin_fault targetDB = None ->
  prepare_fault targetDB = None ->
  no_hard_error (exec_faults targetDB) (decoded rows (rows_data rows)) = true ->
  (Z.of_nat (List.length (rows_data rows)) < 2 ^ 63)%Z ->
  let out := runETL sourceDB targetDB in
  count out = Z.of_nat (List.length (decoded rows (rows_data rows))) /\
  err out = Some ("error iterating over source rows: " +++ e) /\
  committed out = tgt_SalesDB targetDB /\
  target_calls (trace out) =
    [TargetBegin; TxPrepare insertSQL] ++
    map StmtExec (map exec_args (decoded rows (rows_data rows))) ++
    [StmtClose; TxRollback].
Proof.
  intros HQ Herr HB HP Hok Hbound out. subst out.
  destruct (runETL_completes _ _ _ HQ HB HP Hok)
    as (Hcount & He & Hcommitted & _). cbv zeta in *.
  pose proof (decoded_refused rows (rows_data rows)) as Hlen.
  rewrite (runETL_target_calls _ _ _ HQ HB HP Hok).
  rewrite Herr in *.
  split; [rewrite Hcount, count_after_small; lia|].
  split; [exact He|]. split; [exact Hcommitted|reflexivity].
Qed.

(** X9.  A commit that fails.  When every row went through and [Commit]
    itself fails, [runETL] returns the number of rows it handed to the
    insert and the wrapped commit error, and the relation is what it was
    before the run. *)
Theorem X9_commit_failure (sourceDB : SourceDB) (targetDB : TargetDB)
    (rows : Rows) (e : string) :
  DB_Query sourceDB query = Ok rows ->
  rows_err rows = None ->
  begin_fault targetDB = None ->
  prepare_fault targetDB = None ->
  commit_fault targetDB = Some e ->
  no_hard_error (exec_faults targetDB) (decoded rows (rows_data rows)) = true ->
  (Z.of_nat (List.length (rows_data rows)) < 2 ^ 63)%Z ->
  let out := runETL sourceDB targetDB in
  count out = Z.of_nat (List.length (decoded rows (rows_data rows))) /\
  err out = Some ("failed to commit transaction: " +++ e) /\
  committed out = tgt_SalesDB targetDB /\
  target_calls (trace out) =
    [TargetBegin; TxPrepare insertSQL] ++
    map StmtExec (map exec_args (decoded rows (rows_data rows))) ++
    [TxCommit; StmtClose; TxRollback].
Proof.
  intros HQ Herr HB HP HC Hok Hbound out. subst out.
  destruct (runETL_completes _ _ _ HQ HB HP Hok)
    as (Hcount & He & Hcommitted & _). cbv zeta in *.
  pose proof (decoded_refused rows (rows_data rows)) as Hlen.
  rewrite (runETL_target_calls _ _ _ HQ HB HP Hok).
  rewrite Herr, HC in *.
  split; [rewrite Hcount, count_after_small; lia|].
  split; [exact He|]. split; [exact Hcommitted|reflexivity].
Qed.

(** X10.  Release on every exit path.  Once the query has succeeded, every
    return of [runETL] ends with [rows.Close]; once the transaction is
    begun, with [tx.Rollback] before it; once the statement is prepared,
    with [stmt.Close] before that -- whatever happens in between. *)
Theorem X10_released_on_every_path (sourceDB : SourceDB) (targetDB : TargetDB)
    (rows : Rows) :
  DB_Query sourceDB query = Ok rows ->
  let out := runETL sourceDB targetDB in
  (exists before, trace out = before ++ [RowsClose]) /\
  (begin_fault targetDB = None ->
   exists before, trace out = before ++ [TxRollback; RowsClose]) /\
  (begin_fault targetDB = None -> prepare_fault targetDB = None ->
   exists before, trace out = before ++ [StmtClose; TxRollback; RowsClose]).
Proof.
  intros HQ out. subst out.
  assert (H3 : begin_fault targetDB = None -> prepare_fault targetDB = None ->
               exists before, trace (runETL sourceDB targetDB) =
                                before ++ [StmtClose; TxRollback; RowsClose]).
  { intros HB HP. rewrite (runETL_entered _ _ _ HQ HB HP). cbv zeta.
    destruct (failure _); [unfold leave; cbn [trace]; eauto|].
    destruct (rows_err rows); unfold leave; cbn [trace]; eauto. }
  assert (H2 : begin_fault targetDB = None ->
               exists before, trace (runETL sourceDB targetDB) =
                                before ++ [TxRollback; RowsClose]).
  { intros HB. destruct (prepare_fault targetDB) as [e|] eqn:HP.
    - unfold runETL, DB_Begin.
      rewrite HQ, HB, Tx_Prepare_insertSQL, HP. unfold leave. cbn [trace].
      eauto.
    - destruct (H3 HB eq_refl) as [before ->].
      exists (before ++ [StmtClose]). now rewrite <- app_assoc. }
  split; [|split; assumption].
  destruct (begin_fault targetDB) as [e|] eqn:HB.
  - unfold runETL, DB_Begin. rewrite HQ, HB. cbn [trace].
    now exists [SourceQuery query; TargetBegin].
  - destruct (H2 eq_refl) as [before ->].
    exists (before ++ [TxRollback]). now rewrite <- app_assoc.
Qed.


(** *** Which rows [Scan] accepts *)

Lemma through_DNil (d : dest) : through d DNil = Ok DNil.
Proof. destruct d; reflexivity. Qed.

Lemma Rows_Scan_accepts (rs : Rows) (cols : list driver_value) :
  (exists v, Rows_Scan rs cols = Ok v) <->
  List.length cols = 12%nat /\
  forall i, (i < 12)%nat ->
    exists x, through (nth i dests ToNullString) (nth i cols DNil) = Ok x.
Proof.
  split.
  - intros [v H]. split; [exact (Rows_Scan_columns _ _ _ H)|].
    pose proof (Rows_Scan_columns _ _ _ H) as Hlen.
    do 12 (destruct cols as [|? cols]; [discriminate|]).
    destruct cols; [clear Hlen|discriminate].
    apply Rows_Scan_12 in H.
    destruct H as (H0 & H1 & H2 & H3 & H4 & H5 & H6 & H7 & H8 & H9 & H10 & H11).
    intros i Hi.
    do 12 (destruct i as [|i];
           [cbn [nth dests through];
            first [rewrite H0|rewrite H1|rewrite H2|rewrite H3|rewrite H4
                  |rewrite H5|rewrite H6|rewrite H7|rewrite H8|rewrite H9
                  |rewrite H10|rewrite H11];
            cbn [bind]; eauto|]).
    lia.
  - intros [Hlen H].
    do 12 (destruct cols as [|? cols]; [discriminate|]).
    destruct cols; [clear Hlen|discriminate].
    pose proof (H 0%nat ltac:(lia)) as [x0 E0].
    pose proof (H 1%nat ltac:(lia)) as [x1 E1].
    pose proof (H 2%nat ltac:(lia)) as [x2 E2].
    pose proof (H 3%nat ltac:(lia)) as [x3 E3].
    pose proof (H 4%nat ltac:(lia)) as [x4 E4].
    pose proof (H 5%nat ltac:(lia)) as [x5 E5].
    pose proof (H 6%nat ltac:(lia)) as [x6 E6].
    pose proof (H 7%nat ltac:(lia)) as [x7 E7].
    pose proof (H 8%nat ltac:(lia)) as [x8 E8].
    pose proof (H 9%nat ltac:(lia)) as [x9 E9].
    pose proof (H 10%nat ltac:(lia)) as [x10 E10].
    pose proof (H 11%nat ltac:(lia)) as [x11 E11].
    clear H. cbn [nth dests through] in *. unfold bind in *.
    unfold Rows_Scan, scan_column, bind.
    repeat match goal with
           | E : match ?s with Ok _ => _ | Err _ => _ end = Ok _ |- _ =>
               destruct s; [clear E|discriminate E]
           end.
    eauto.
Qed.

(** X12.  Which source rows are skipped.  A row the query delivers is
    decoded exactly when each of its twelve values passes through the
    holder of its column; a NULL always does.  So a row is skipped only for
    a value that is not NULL and that the conversion to the type of its
    holder refuses -- never for its NULLs, and never for the number of its
    columns. *)
Theorem X12_skipped_rows (sourceDB : SourceDB) (rows : Rows)
    (cols : list driver_value) :
  DB_Query sourceDB query = Ok rows ->
  In cols (rows_data rows) ->
  ((exists v, Rows_Scan rows cols = Ok v) <->
   forall i, (i < 12)%nat ->
     is_nil (nth i cols DNil) = true \/
     exists x, through (nth i dests ToNullString) (nth i cols DNil) = Ok x).
Proof.
  intros HQ Hin.
  assert (Hlen : List.length cols = 12%nat).
  { rewrite DB_Query_query in HQ.
    destruct (query_fault sourceDB); [discriminate|]. cbv zeta in HQ.
    assert (Hsel : In cols (select_rows query (src_Sales sourceDB))).
    { destruct (cursor_fault sourceDB) as [[n e]|].
      - destruct (n <=? _)%nat; injection HQ as <-; cbn [rows_data] in Hin;
          [|exact Hin].
        rewrite <- (firstn_skipn n (select_rows query (src_Sales sourceDB))).
        apply in_or_app. now left.
      - injection HQ as <-. exact Hin. }
    unfold select_rows in Hsel. apply in_map_iff in Hsel.
    destruct Hsel as (r & <- & _). now rewrite length_map. }
  rewrite Rows_Scan_accepts. split.
  - intros [_ H] i Hi. right. now apply H.
  - intros H. split; [exact Hlen|]. intros i Hi.
    destruct (H i Hi) as [Hnil|Hx]; [|exact Hx].
    destruct (nth i cols DNil); try discriminate.
    exists DNil. apply through_DNil.
Qed.

(** X15.  The insert, twice.  When [Exec] of the prepared insert succeeds
    on a row, the key of the row is in the working copy afterwards, and a
    second [Exec] of the same row in the same transaction succeeds again and
    changes nothing. *)
Theorem X15_exec_twice (c t : table) (v : Locals) (sess : Session) :
  Stmt_Exec insertSQL None (open_tx c t) (exec_args v) = Ok sess ->
  (exists t', sess = open_tx c t' /\ has_key (key_of v) t' = true) /\
  Stmt_Exec insertSQL None sess (exec_args v) = Ok sess.
Proof.
  rewrite Stmt_Exec_hard_error.
  destruct (hard_error None v) eqn:He; [discriminate|].
  intros [= <-]. split.
  - exists (upsert t v). split; [reflexivity|apply has_key_upsert_self].
  - rewrite Stmt_Exec_hard_error, He. f_equal. f_equal.
    unfold upsert at 1. now rewrite has_key_upsert_self.
Qed.

(** ** Beyond the claims: [ensureTargetTable] and [main] *)

Lemma ensureTargetTable_eq (db : TargetServer) :
  ensureTargetTable db =
  match ddl_fault db with
  | Some e =>
      (Some ("failed to create target table: " +++ e), srv_SalesDB db, [])
  | None =>
      (None, Some (rows_of (srv_SalesDB db)),
       ["Target table 'SalesDB' is ready (fsno is PRIMARY KEY)."])
  end.
Proof.
  unfold ensureTargetTable, DB_Exec_create.
  destruct (ddl_fault db); [reflexivity|].
  destruct (srv_SalesDB db); reflexivity.
Qed.

(** X13.  [ensureTargetTable] is safe on every run.  The statement it sends
    fails only when the server refuses it, never because the relation is
    there already -- which the same statement without [IF NOT EXISTS] would
    do.  When the server takes the statement, the call returns nil, logs
    that the table is ready, and the relation exists afterwards with
    exactly the rows it had -- none if it was not there.  When the server
    refuses it with [e], the call returns [failed to create target table:
    e], logs nothing and leaves the relation, or its absence, as it was.
    Either way a second call on the server as the first left it returns
    the same and changes nothing. *)
Theorem X13_ensureTargetTable_idempotent (db : TargetServer) :
  (forall e, DB_Exec_create db createTable = Err e <-> ddl_fault db = Some e) /\
  (ddl_fault db = None -> srv_SalesDB db <> None ->
   exists e,
     DB_Exec_create db
       {| ct_if_not_exists := false; ct_columns := createTableSQL |} = Err e) /\
  ensureTargetTable db =
    match ddl_fault db with
    | Some e =>
        (Some ("failed to create target table: " +++ e), srv_SalesDB db, [])
    | None =>
        (None, Some (rows_of (srv_SalesDB db)),
         ["Target table 'SalesDB' is ready (fsno is PRIMARY KEY)."])
    end /\
  ensureTargetTable (server_with db (snd (fst (ensureTargetTable db)))) =
    ensureTargetTable db.
Proof.
  split; [|split; [|split]].
  - intros e. unfold DB_Exec_create.
    destruct (ddl_fault db) as [f|].
    + split; congruence.
    + destruct (srv_SalesDB db); split; discriminate.
  - intros Hf Hrel. unfold DB_Exec_create. rewrite Hf.
    destruct (srv_SalesDB db); [eexists; reflexivity|congruence].
  - apply ensureTargetTable_eq.
  - rewrite !ensureTargetTable_eq. cbn [server_with ddl_fault srv_SalesDB].
    destruct (ddl_fault db); reflexivity.
Qed.

(** [main] once every stage before the pipeline has succeeded. *)
Lemma main_after_setup (p : Process) :
  setup_failure p = None ->
  main p =
  let tgt := target_server p in
  let out := runETL (src_handle (source_server p))
               (connect tgt (Some (rows_of (srv_SalesDB tgt)))) in
  let lines :=
    ["Starting Go ETL Pipeline...";
     "Successfully connected to MSSQL Source.";
     "Successfully connected to PostgreSQL Target.";
     "Target table 'SalesDB' is ready (fsno is PRIMARY KEY).";
     "Starting ETL from Sales to SalesDB..."] ++ log_lines (trace out) in
  match err out with
  | Some e =>
      Fatal lines ("ETL Process failed: " +++ e) (Some (committed out))
        (Some out)
  | None =>
      {| exit_code := 0;
         printed :=
           lines ++
           ["ETL Process successful! Migrated " +++ fmt_d (count out) +++
            " rows in " +++ elapsed p +++ "."];
         closed := [TargetHandle; SourceHandle];
         relation := Some (committed out);
         pipeline := Some out |}
  end.
Proof.
  unfold setup_failure, main. intros H.
  destruct (dotenv p) as [|e [|]]; try discriminate;
    (destruct (_ || _); [discriminate|]);
    (destruct (src_open_fault (source_server p)); [discriminate|]);
    (destruct (src_ping_fault (source_server p)); [discriminate|]);
    (destruct (tgt_open_fault (target_server p)); [discriminate|]);
    (destruct (tgt_ping_fault (target_server p)); [discriminate|]);
    rewrite ensureTargetTable_eq;
    (destruct (ddl_fault (target_server p)); [discriminate|]);
    cbv zeta; cbn [option_map];
    destruct (err _); reflexivity.
Qed.

(** [main] when a stage before the pipeline fails. *)
Lemma main_setup_failure (p : Process) (msg : string) :
  setup_failure p = Some msg ->
  exists lines,
    main p = Fatal lines msg (srv_SalesDB (target_server p)) None.
Proof.
  unfold setup_failure, main. intros H.
  destruct (dotenv p) as [|e [|]];
    try (injection H as <-; eexists; reflexivity);
    (destruct (_ || _); [injection H as <-; eexists; reflexivity|]);
    (destruct (src_open_fault (source_server p));
       [injection H as <-; eexists; reflexivity|]);
    (destruct (src_ping_fault (source_server p));
       [injection H as <-; eexists; reflexivity|]);
    (destruct (tgt_open_fault (target_server p));
       [injection H as <-; eexists; reflexivity|]);
    (destruct (tgt_ping_fault (target_server p));
       [injection H as <-; eexists; reflexivity|]);
    rewrite ensureTargetTable_eq;
    (destruct (ddl_fault (target_server p)); [|discriminate]);
    injection H as <-; eexists; reflexivity.
Qed.

(** X14.  The stages before the pipeline.  [main] loads [.env], reads the
    two connection strings, opens and pings the source, opens and pings
    the target and ensures the relation, in this order; the first stage
    that fails ends the program with status 1 and its message as the last
    line logged: [runETL] is not called, no deferred [Close] runs and the
    relation is left as it was. *)
Theorem X14_setup_failure_is_fatal (p : Process) (msg : string) :
  setup_failure p = Some msg ->
  exit_code (main p) = 1%Z /\
  last (printed (main p)) EmptyString = msg /\
  pipeline (main p) = None /\
  closed (main p) = [] /\
  relation (main p) = srv_SalesDB (target_server p).
Proof.
  intros H. destruct (main_setup_failure p msg H) as [lines ->].
  unfold Fatal. cbn [exit_code printed pipeline closed relation].
  split; [reflexivity|]. split; [apply last_last|]. repeat split.
Qed.

(** A missing [.env] file is not an error: with the same environment
    the program does exactly what it does when the file was loaded; any
    other error of the load ends it with status 1 before anything else. *)
Lemma main_missing_dotenv (p : Process) (e : string) :
  main (with_dotenv p (LoadError e true)) = main (with_dotenv p Loaded) /\
  main (with_dotenv p (LoadError e false)) =
    Fatal ["Starting Go ETL Pipeline..."] ("Error loading .env file: " +++ e)
      (srv_SalesDB (target_server p)) None.
Proof. split; reflexivity. Qed.

(** X16.  The exit status.  It is 0 or 1; it is 0 exactly when [runETL] was
    called and returned no error; the deferred [Close] calls run, target
    first, then source, only in that case -- an exit through [log.Fatal]
    skips them. *)
Theorem X16_exit_status (p : Process) :
  (exit_code (main p) = 0%Z \/ exit_code (main p) = 1%Z) /\
  (exit_code (main p) = 0%Z <->
   exists out, pipeline (main p) = Some out /\ err out = None) /\
  closed (main p) =
    (if (exit_code (main p) =? 0)%Z then [TargetHandle; SourceHandle] else []).
Proof.
  destruct (setup_failure p) as [msg|] eqn:H.
  - destruct (main_setup_failure p msg H) as [lines ->].
    unfold Fatal. cbn [exit_code pipeline closed].
    split; [now right|]. split; [|reflexivity].
    split; [discriminate|]. intros (out & Hout & _). discriminate.
  - rewrite (main_after_setup p H). cbv zeta.
    destruct (err (runETL _ _)) as [e|] eqn:He;
      unfold Fatal; cbn [exit_code pipeline closed].
    + split; [now right|]. split; [|reflexivity].
      split; [discriminate|]. intros (out & [= <-] & Hout). congruence.
    + split; [now left|]. split; [|reflexivity].
      split; [|reflexivity]. intros _. eauto.
Qed.

(** X17.  A run of the program that fails changes no row: at exit status 1
    the relation holds the rows it held at the start -- at most it has been
    created, empty -- whichever stage failed. *)
Theorem X17_failed_program_changes_no_row (p : Process) :
  exit_code (main p) = 1%Z ->
  rows_of (relation (main p)) = rows_of (srv_SalesDB (target_server p)).
Proof.
  destruct (setup_failure p) as [msg|] eqn:H.
  - destruct (main_setup_failure p msg H) as [lines ->]. reflexivity.
  - rewrite (main_after_setup p H). cbv zeta.
    destruct (err (runETL _ _)) as [e|] eqn:He; [|discriminate].
    intros _. unfold Fatal. cbn [relation rows_of].
    destruct (runETL_paths (src_handle (source_server p))
                (connect (target_server p)
                   (Some (rows_of (srv_SalesDB (target_server p))))))
      as (vs & rest & _ & _ & Hc & _).
    cbv zeta in Hc. rewrite He in Hc. exact Hc.
Qed.

(** X18.  A run of the program that succeeds: at exit status 0 the relation
    exists and holds what [runETL] committed on the rows it held at the
    start, and the last line logged reports the count [runETL] returned and
    the elapsed time. *)
Theorem X18_success_report (p : Process) :
  exit_code (main p) = 0%Z ->
  let tgt := target_server p in
  let out := runETL (src_handle (source_server p))
               (connect tgt (Some (rows_of (srv_SalesDB tgt)))) in
  setup_failure p = None /\
  pipeline (main p) = Some out /\
  err out = None /\
  relation (main p) = Some (committed out) /\
  last (printed (main p)) EmptyString =
    "ETL Process successful! Migrated " +++ fmt_d (count out) +++
    " rows in " +++ elapsed p +++ ".".
Proof.
  destruct (setup_failure p) as [msg|] eqn:H.
  - destruct (main_setup_failure p msg H) as [lines ->]. discriminate.
  - rewrite (main_after_setup p H). cbv zeta.
    destruct (err (runETL _ _)) as [e|] eqn:He; [discriminate|].
    intros _. cbn [pipeline relation printed].
    repeat split. apply last_last.
Qed.

(** When no insert fails, the lines the loop logs do not depend on what
    the relation holds. *)
Lemma transfer_log_lines (rs : Rows) (data : list (list driver_value)) :
  forall n c t c' t' fs,
    no_hard_error fs (decoded rs data) = true ->
    log_lines (fst (transfer rs insertSQL data n (open_tx c t) fs)) =
    log_lines (fst (transfer rs insertSQL data n (open_tx c' t') fs)).
Proof.
  induction data as [|cols data IH]; intros n c t c' t' fs Hok; [reflexivity|].
  cbn [decoded] in Hok. destruct (Rows_Scan rs cols) as [v|e] eqn:Hscan.
  - cbn [no_hard_error] in Hok.
    destruct (hard_error (hd None fs) v) eqn:He; [discriminate|].
    rewrite !(transfer_exec _ _ _ _ _ _ _ _ Hscan He). cbn [fst].
    cbn [log_lines flat_map app]. now apply IH.
  - rewrite !(transfer_skip _ _ _ _ _ _ _ Hscan). cbn [fst].
    cbn [log_lines flat_map app]. f_equal. now apply IH.
Qed.

(** A second run on a loaded relation, on the same server. *)
Lemma runETL_again (sourceDB : SourceDB) (targetDB : TargetDB) :
  err (runETL sourceDB targetDB) = None ->
  let loaded := committed (runETL sourceDB targetDB) in
  let second := runETL sourceDB (reloaded targetDB loaded) in
  err second = None /\
  count second = count (runETL sourceDB targetDB) /\
  committed second = loaded /\
  log_lines (trace second) = log_lines (trace (runETL sourceDB targetDB)).
Proof.
  intros Hnil loaded second. subst loaded second.
  destruct (runETL_nil_inv _ _ Hnil)
    as (rows & HQ & HB & HP & Hok & Herr & HC).
  destruct (runETL_completes _ _ _ HQ HB HP Hok)
    as (Hcount & _ & Hcommitted & _). cbv zeta in *.
  rewrite Herr, HC in Hcommitted.
  destruct (runETL_completes sourceDB
              (reloaded targetDB (committed (runETL sourceDB targetDB)))
              rows HQ HB HP Hok)
    as (Hcount2 & Herr2 & Hcommitted2 & _). cbv zeta in *.
  cbn [reloaded commit_fault tgt_SalesDB] in *.
  rewrite Herr, HC in *. cbn [option_map] in Herr2.
  split; [exact Herr2|]. split; [now rewrite Hcount2, Hcount|].
  split.
  - rewrite Hcommitted2. apply fold_upsert_all_conflicts.
    intros v Hv. rewrite Hcommitted. now apply has_key_loaded.
  - generalize (committed (runETL sourceDB targetDB)). intros T1.
    rewrite (runETL_entered _ _ _ HQ HB HP).
    rewrite (runETL_entered sourceDB (reloaded targetDB T1) rows HQ HB HP).
    cbv zeta. cbn [reloaded tgt_SalesDB exec_faults commit_fault].
    destruct (transfer_completes rows (rows_data rows) 0 (tgt_SalesDB targetDB)
                (tgt_SalesDB targetDB) (exec_faults targetDB) Hok)
      as (Hf & _ & Htx & _).
    destruct (transfer_completes rows (rows_data rows) 0 T1 T1
                (exec_faults targetDB) Hok) as (Hf' & _ & Htx' & _).
    rewrite Hf, Hf', Herr, Htx, Htx', !Tx_Commit_open. cbn [commit_fault].
    rewrite HC. unfold leave. cbn [fst snd trace].
    rewrite !log_lines_app. f_equal. f_equal. f_equal.
    now apply transfer_log_lines.
Qed.

(** X19.  Running the program again.  After a run that exits with status 0,
    a second run of the program in the same world, on the relation as the
    first left it, exits with status 0 too, logs the same lines -- the same
    count among them -- and leaves the relation as it found it. *)
Theorem X19_program_rerun (p : Process) :
  exit_code (main p) = 0%Z ->
  let again := main (with_relation p (relation (main p))) in
  exit_code again = 0%Z /\
  printed again = printed (main p) /\
  relation again = relation (main p).
Proof.
  intros H0 again. subst again.
  destruct (setup_failure p) as [msg|] eqn:H.
  { destruct (main_setup_failure p msg H) as [lines Hm].
    rewrite Hm in H0. discriminate. }
  assert (H' : forall rel, setup_failure (with_relation p rel) = None)
    by (intros rel; exact H).
  rewrite (main_after_setup _ (H' _)).
  rewrite (main_after_setup p H) in *. cbv zeta in *.
  destruct (err (runETL (src_handle (source_server p)) _)) as [e|] eqn:He;
    [discriminate|].
  cbn [relation printed rows_of with_relation server_with source_server
       target_server srv_SalesDB elapsed].
  destruct (runETL_again _ _ He) as (He2 & Hc2 & Hcm2 & Hl2). cbv zeta in *.
  change (connect _ (Some (committed ?o)))
    with (reloaded (connect (target_server p)
                      (Some (rows_of (srv_SalesDB (target_server p)))))
            (committed o)).
  rewrite He2. cbn [exit_code printed relation].
  split; [reflexivity|]. rewrite Hl2, Hc2, Hcm2. split; reflexivity.
Qed.

(** X20.  What the program contacts.  [runETL] is called only when [.env]
    did not fail to load, both connection strings are set, both servers
    were opened and pinged and the relation was ensured; and it is called
    on the relation as [ensureTargetTable] left it, with the rows it had. *)
Theorem X20_pipeline_needs_setup (p : Process) (out : Outcome) :
  pipeline (main p) = Some out ->
  setup_failure p = None /\
  Getenv p "MSSQL_CONN" <> EmptyString /\
  Getenv p "POSTGRES_CONN" <> EmptyString /\
  out = runETL (src_handle (source_server p))
          (connect (target_server p)
             (Some (rows_of (srv_SalesDB (target_server p))))).
Proof.
  intros Hp.
  destruct (setup_failure p) as [msg|] eqn:H.
  { destruct (main_setup_failure p msg H) as [lines Hm].
    rewrite Hm in Hp. discriminate. }
  split; [reflexivity|].
  assert (Henv : (Getenv p "MSSQL_CONN" =? EmptyString)%string
                 || (Getenv p "POSTGRES_CONN" =? EmptyString)%string = false).
  { unfold setup_failure in H.
    destruct (dotenv p) as [|e [|]]; try discriminate;
      destruct (_ || _); (discriminate || reflexivity). }
  apply orb_false_iff in Henv. destruct Henv as [H1 H2].
  apply String.eqb_neq in H1, H2.
  split; [exact H1|]. split; [exact H2|].
  rewrite (main_after_setup p H) in Hp. cbv zeta in Hp.
  destruct (err (runETL _ _)); unfold Fatal in Hp; cbn [pipeline] in Hp;
    now injection Hp as <-.
Qed.

End Pipeline.





(** ** The theorems at work on the example stores *)

Notation "'run'" :=
  (runETL Example.convertAssign_string Example.convertAssign_Time
     Example.convertAssign_float64 Example.collate).

Lemma C1_atomicity_witness :
  let out := run (Example.source Example.ten_sales)
                 (Example.target [] Example.fifth_fails) in
  count out = 4%Z /\
  err out = Some "error executing insert statement: pq: value too long for type character varying(50)" /\
  committed out = [].
Proof.
  pose proof (fun rows v e =>
    C1_atomicity Example.convertAssign_string Example.convertAssign_Time
      Example.convertAssign_float64 Example.collate
      (Example.source Example.ten_sales)
      (Example.target [] Example.fifth_fails) rows 4 v e) as H.
  edestruct H as (H1 & H2 & H3 & _); [reflexivity ..|].
  cbv zeta. split; [exact H1|split; [exact H2|exact H3]].
Defined.

Lemma C2_idempotent_witness :
  let first := run (Example.source Example.two_sales) (Example.target [] []) in
  let second := run (Example.source Example.two_sales)
                    (reloaded (Example.target [] []) (committed first)) in
  (err first = None /\ count first = 2%Z /\ List.length (committed first) = 2%nat) /\
  (err second = None /\ count second = 2%Z /\ committed second = committed first).
Proof.
  cbv zeta. split; [repeat split|].
  destruct (C2_idempotent Example.convertAssign_string
              Example.convertAssign_Time Example.convertAssign_float64
              Example.collate (Example.source Example.two_sales)
              (Example.target [] []) eq_refl) as [_ (H1 & H2 & H3)].
  split; [exact H1|split; [rewrite H2; reflexivity|exact H3]].
Defined.

Lemma C3_failure_report_witness :
  let out := run (Example.source Example.ten_sales)
                 (Example.target [] Example.fifth_fails) in
  (count out, err out) =
    (4%Z, Some "error executing insert statement: pq: value too long for type character varying(50)") /\
  last (log_lines (trace out)) EmptyString =
    "Failed to insert row with fsno B05: pq: value too long for type character varying(50)".
Proof.
  pose proof (fun rows v e =>
    C3_failure_report Example.convertAssign_string Example.convertAssign_Time
      Example.convertAssign_float64 Example.collate
      (Example.source Example.ten_sales)
      (Example.target [] Example.fifth_fails) rows 4 v e) as H.
  edestruct H as (H1 & H2); [reflexivity ..|].
  cbv zeta. split; [exact H1|exact H2].
Defined.

(** C3 as the claim has it fails: two runs that break on different rows,
    [A1] and [B7], hand their callers the very same count and error, and
    the error text does not mention the row; only the log lines differ. *)
Lemma C3_error_omits_fsno :
  let lost := [Some "driver: bad connection"] in
  let out1 := run (Example.source [Example.sale (DString "A1") DNil])
                  (Example.target [] lost) in
  let out2 := run (Example.source [Example.sale (DString "B7") DNil])
                  (Example.target [] lost) in
  err out1 =
    Some "error executing insert statement: driver: bad connection" /\
  index 0 "A1" "error executing insert statement: driver: bad connection" = None /\
  (count out2, err out2) = (count out1, err out1) /\
  last (log_lines (trace out1)) EmptyString =
    "Failed to insert row with fsno A1: driver: bad connection" /\
  last (log_lines (trace out2)) EmptyString =
    "Failed to insert row with fsno B7: driver: bad connection" /\
  ~ (exists identity : option string -> string,
       identity (err out1) = "A1" /\ identity (err out2) = "B7").
Proof.
  cbv zeta. do 5 (split; [reflexivity|]).
  intros (identity & H1 & H2).
  change (identity (Some "error executing insert statement: driver: bad connection")
          = "A1") in H1.
  change (identity (Some "error executing insert statement: driver: bad connection")
          = "B7") in H2.
  rewrite H1 in H2. discriminate.
Qed.

Lemma C4_row_skip_isolation_witness :
  let out := run (Example.source Example.one_malformed) (Example.target [] []) in
  err out = None /\
  count out = 2%Z /\
  map (fun a => nth 0 a DNil) (execs (trace out)) = [DString "C1"; DString "C3"] /\
  List.length (log_lines (trace out)) = 2%nat.
Proof.
  pose proof (fun rows =>
    C4_row_skip_isolation Example.convertAssign_string
      Example.convertAssign_Time Example.convertAssign_float64 Example.collate
      (Example.source Example.one_malformed) (Example.target [] []) rows) as H.
  edestruct H as (H1 & H2 & H3 & _ & H5); [reflexivity ..|].
  cbv zeta. split; [exact H1|].
  split; [rewrite H2; reflexivity|].
  split; [rewrite H3; reflexivity|].
  rewrite H5. reflexivity.
Defined.

Lemma C5_count_semantics_witness :
  let out := run (Example.source Example.two_sales)
                 (Example.target [Example.stored_A1] []) in
  count out = 2%Z /\
  List.length (execs (trace out)) = 2%nat /\
  List.length (committed out) = 2%nat.
Proof.
  pose proof (fun rows =>
    C5_count_semantics Example.convertAssign_string
      Example.convertAssign_Time Example.convertAssign_float64 Example.collate
      (Example.source Example.two_sales)
      (Example.target [Example.stored_A1] []) rows) as H.
  edestruct H as (H1 & H2 & _); [reflexivity ..|].
  cbv zeta. split; [rewrite H2; reflexivity|].
  split; [apply Nat2Z.inj; rewrite <- H1, H2; reflexivity|reflexivity].
Defined.

Lemma C6_null_pass_through_witness :
  let rs := {| rows_columns := sel_columns query; rows_data := [];
               rows_err := None |} in
  let cols := map (fun c => source_field c (Example.sale (DString "A2") DNil))
                (sel_columns query) in
  exists v,
    Rows_Scan Example.convertAssign_string Example.convertAssign_Time
      Example.convertAssign_float64 rs cols = Ok v /\
    nf_Valid (netpay v) = false /\
    nth 11 (exec_args v) DNil = DNil /\
    field "net_pay" (new_row insertSQL (exec_args v)) = DNil /\
    field "fsno" (new_row insertSQL (exec_args v)) = DString "A2".
Proof.
  cbv zeta. eexists. split; [reflexivity|].
  edestruct (fun v => C6_null_pass_through Example.convertAssign_string
               Example.convertAssign_Time Example.convertAssign_float64
               {| rows_columns := sel_columns query; rows_data := [];
                  rows_err := None |}
               (map (fun c => source_field c (Example.sale (DString "A2") DNil))
                  (sel_columns query)) v) as [Hcols _]; [reflexivity|].
  destruct (Hcols 11%nat ltac:(repeat constructor)) as [Hnil Hfield].
  destruct (Hcols 0%nat ltac:(repeat constructor)) as [_ Hkey].
  split; [reflexivity|].
  split; [reflexivity|].
  split; [exact Hfield|exact Hkey].
Defined.

(** C6 as the claim has it fails on [fsno]: a sale whose [fsno] is NULL is
    decoded and bound with a NULL key, and the relation refuses it; the run
    ends on that hard error and the target holds no row, with or without a
    NULL [fsno]. *)
Lemma C6_null_fsno_refused :
  let out := run (Example.source Example.no_key) (Example.target [] []) in
  execs (trace out) =
    [[DNil; DString "cash"; DNil; DString "Abebe"; DNil;
      DTime 1700000000000000000%Z; DString "P-7"; DNil; DString "pcs";
      DFloat64 4617315517961601024%Z; DNil; DNil]] /\
  err out =
    Some ("error executing insert statement: pq: null value in column " +++
          quote +++ "fsno" +++ quote +++ " violates not-null constraint") /\
  count out = 0%Z /\
  committed out = [] /\
  ~ (exists r, In r (committed out) /\ field "fsno" r = DNil).
Proof.
  cbv zeta. do 4 (split; [reflexivity|]).
  intros (r & Hin & _). exact Hin.
Qed.

Lemma C7_query_failure_witness :
  let sourceDB := {| src_Sales := Example.two_sales;
                     query_fault := Some "mssql: login error";
                     cursor_fault := None |} in
  let out := run sourceDB (Example.target [Example.stored_A1] []) in
  count out = 0%Z /\
  err out = Some "failed to query source data: mssql: login error" /\
  committed out = [Example.stored_A1] /\
  trace out = [SourceQuery query].
Proof.
  cbv zeta.
  destruct (C7_query_failure Example.convertAssign_string
              Example.convertAssign_Time Example.convertAssign_float64
              Example.collate
              {| src_Sales := Example.two_sales;
                 query_fault := Some "mssql: login error";
                 cursor_fault := None |}
              (Example.target [Example.stored_A1] [])
              "mssql: login error" eq_refl) as (H & _).
  rewrite H. repeat split.
Defined.

Lemma Example_collate_total (a b : driver_value) :
  Example.collate a b = true \/ Example.collate b a = true.
Proof.
  unfold Example.collate.
  rewrite (String_as_OT.cmp_antisym (Example.text b) (Example.text a)).
  destruct (String_as_OT.cmp (Example.text a) (Example.text b)); cbn; auto.
Qed.

Lemma Example_collate_trans (a b c : driver_value) :
  Example.collate a b = true -> Example.collate b c = true ->
  Example.collate a c = true.
Proof.
  unfold Example.collate.
  generalize (Example.text a) (Example.text b) (Example.text c).
  intros x y z Hxy Hyz.
  destruct (String_as_OT.cmp x z) eqn:Hxz; try reflexivity.
  exfalso.
  assert (Hzx : String_as_OT.lt z x).
  { apply String_as_OT.cmp_lt. now rewrite String_as_OT.cmp_antisym, Hxz. }
  destruct (String_as_OT.cmp x y) eqn:E1; [| |discriminate];
    destruct (String_as_OT.cmp y z) eqn:E2; try discriminate.
  - apply String_as_OT.cmp_eq in E1, E2. subst.
    exact (String_as_OT.lt_not_eq _ _ Hzx eq_refl).
  - apply String_as_OT.cmp_eq in E1. apply String_as_OT.cmp_lt in E2. subst.
    exact (String_as_OT.lt_not_eq _ _ (String_as_OT.lt_trans _ _ _ E2 Hzx) eq_refl).
  - apply String_as_OT.cmp_lt in E1. apply String_as_OT.cmp_eq in E2. subst.
    exact (String_as_OT.lt_not_eq _ _ (String_as_OT.lt_trans _ _ _ E1 Hzx) eq_refl).
  - apply String_as_OT.cmp_lt in E1, E2.
    exact (String_as_OT.lt_not_eq _ _
             (String_as_OT.lt_trans _ _ _ E1
                (String_as_OT.lt_trans _ _ _ E2 Hzx)) eq_refl).
Qed.

Lemma C8_deterministic_order_witness :
  let kept := Example.source Example.two_sales in
  let moved := Example.source (rev Example.two_sales) in
  map Sales.fsno (order_by Example.collate "fsno" Example.two_sales) =
    [DString "A1"; DString "A2"] /\
  map (fun a => nth 0 a DNil)
    (execs (trace (run kept (Example.target [] [])))) =
    [DString "A1"; DString "A2"] /\
  DB_Query Example.collate moved query = DB_Query Example.collate kept query /\
  run moved (Example.target [] []) = run kept (Example.target [] []).
Proof.
  cbv zeta. split; [reflexivity|].
  destruct (C8_deterministic_order Example.convertAssign_string
              Example.convertAssign_Time Example.convertAssign_float64
              Example.collate Example_collate_total Example_collate_trans
              (Example.source Example.two_sales) (Example.target [] []))
    as (_ & _ & _ & Hcursor & Hsame).
  split.
  - destruct (Hcursor eq_refl) as (rows & HQ & _ & _ & Hall).
    injection HQ as <-.
    rewrite (Hall eq_refl eq_refl eq_refl). reflexivity.
  - apply (Hsame (Example.source (rev Example.two_sales))).
    + apply perm_swap.
    + reflexivity.
    + reflexivity.
    + intros r1 r2 [<-|[<-|[]]] [<-|[<-|[]]] H1 H2;
        try reflexivity; discriminate.
Defined.

(** C8 as the claim has it fails when two source rows that differ share an
    [fsno]: the same two rows, kept by the server in one order or the
    other, give two different cursors and two different relations, each
    run returning no error. *)
Lemma C8_duplicate_fsno_reorders :
  let paid := Example.sale (DString "A1") Example.f100_50 in
  let unpaid := Example.sale (DString "A1") DNil in
  let s1 := Example.source [paid; unpaid] in
  let s2 := Example.source [unpaid; paid] in
  let empty := Example.target [] [] in
  Permutation (src_Sales s1) (src_Sales s2) /\
  query_fault s2 = query_fault s1 /\
  cursor_fault s2 = cursor_fault s1 /\
  err (run s1 empty) = None /\
  err (run s2 empty) = None /\
  map (field "net_pay") (committed (run s1 empty)) = [Example.f100_50] /\
  map (field "net_pay") (committed (run s2 empty)) = [DNil] /\
  DB_Query Example.collate s2 query <> DB_Query Example.collate s1 query /\
  execs (trace (run s2 empty)) <> execs (trace (run s1 empty)) /\
  run s2 empty <> run s1 empty.
Proof.
  cbv zeta. split; [apply perm_swap|].
  do 6 (split; [reflexivity|]).
  split; [|split].
  - intros H.
    apply (f_equal (fun r => match r with
                             | Ok rows => map (fun a => nth 11 a DNil) (rows_data rows)
                             | Err _ => []
                             end)) in H.
    discriminate H.
  - intros H.
    apply (f_equal (map (fun a => nth 11 a DNil))) in H. discriminate H.
  - intros H.
    apply (f_equal (fun o => map (field "net_pay") (committed o))) in H.
    discriminate H.
Qed.

Lemma C10_empty_source_witness :
  let out := run (Example.source []) (Example.target [Example.stored_A1] []) in
  count out = 0%Z /\
  err out = None /\
  committed out = [Example.stored_A1] /\
  target_calls (trace out) =
    [TargetBegin; TxPrepare insertSQL; TxCommit; StmtClose; TxRollback].
Proof.
  cbv zeta.
  rewrite (C10_empty_source Example.convertAssign_string
             Example.convertAssign_Time Example.convertAssign_float64
             Example.collate (Example.source [])
             (Example.target [Example.stored_A1] [])
             {| rows_columns := sel_columns query; rows_data := [];
                rows_err := None |}
             eq_refl eq_refl eq_refl eq_refl eq_refl eq_refl).
  repeat split.
Defined.

(** ** The properties beyond the claims, at work *)

Notation "'program'" :=
  (main Example.convertAssign_string Example.convertAssign_Time
     Example.convertAssign_float64 Example.collate).

Lemma X1_error_commits_nothing_witness :
  let out := run Fixture.broken_cursor (Example.target [Example.stored_A1] []) in
  err out =
    Some "error iterating over source rows: mssql: connection reset by peer" /\
  committed out = [Example.stored_A1].
Proof.
  cbv zeta. split; [reflexivity|].
  exact (X1_error_commits_nothing Example.convertAssign_string
           Example.convertAssign_Time Example.convertAssign_float64
           Example.collate Fixture.broken_cursor
           (Example.target [Example.stored_A1] []) _ eq_refl).
Defined.

Lemma X3_primary_key_kept_witness :
  let out := run (Example.source Fixture.twice_A1)
                 (Example.target [Fixture.stored_Z9] []) in
  map row_key (committed out) = [DString "Z9"; DString "A1"; DString "A2"] /\
  NoDup (map row_key (committed out)) /\
  Forall (fun r => is_nil (row_key r) = false) (committed out).
Proof.
  cbv zeta. split; [reflexivity|].
  apply (X3_primary_key_kept Example.convertAssign_string
           Example.convertAssign_Time Example.convertAssign_float64
           Example.collate (Example.source Fixture.twice_A1)
           (Example.target [Fixture.stored_Z9] [])).
  - repeat constructor. intros [].
  - repeat constructor.
Defined.

Lemma X4_never_updates_witness :
  lookup_row (DString "A1")
    (committed (run (Example.source Example.two_sales)
                    (Example.target [Fixture.old_A1] []))) =
  Some Fixture.old_A1.
Proof.
  exact (X4_never_updates Example.convertAssign_string
           Example.convertAssign_Time Example.convertAssign_float64
           Example.collate (Example.source Example.two_sales)
           (Example.target [Fixture.old_A1] []) (DString "A1")
           Fixture.old_A1 eq_refl).
Defined.

Lemma X5_first_row_wins_witness :
  let out := run (Example.source Fixture.twice_A1)
                 (Example.target [Fixture.stored_Z9] []) in
  option_map (field "net_pay") (lookup_row (DString "A1") (committed out)) =
    Some Example.f100_50 /\
  lookup_row (DString "A7") (committed out) = None.
Proof.
  cbv zeta. split.
  - rewrite (X5_first_row_wins Example.convertAssign_string
               Example.convertAssign_Time Example.convertAssign_float64
               Example.collate (Example.source Fixture.twice_A1)
               (Example.target [Fixture.stored_Z9] []) (DString "A1")
               eq_refl eq_refl).
    reflexivity.
  - rewrite (X5_first_row_wins Example.convertAssign_string
               Example.convertAssign_Time Example.convertAssign_float64
               Example.collate (Example.source Fixture.twice_A1)
               (Example.target [Fixture.stored_Z9] []) (DString "A7")
               eq_refl eq_refl).
    reflexivity.
Defined.

Lemma X6_count_bounds_witness :
  let out := run (Example.source Example.two_sales)
                 (Example.target [Example.stored_A1] []) in
  (Z.of_nat (List.length (committed out)) - 1 <= count out)%Z /\
  (count out <= 2)%Z.
Proof.
  exact (X6_count_bounds Example.convertAssign_string
           Example.convertAssign_Time Example.convertAssign_float64
           Example.collate (Example.source Example.two_sales)
           (Example.target [Example.stored_A1] []) eq_refl).
Defined.

Lemma X7_setup_failure_witness :
  let src := Example.source Example.two_sales in
  let busy := Fixture.target_with [Example.stored_A1]
                (Some "pq: sorry, too many clients already") None None in
  let gone := Fixture.target_with [Example.stored_A1] None
                (Some "pq: permission denied for table salesdb") None in
  trace (run src busy) = [SourceQuery query; TargetBegin; RowsClose] /\
  err (run src gone) =
    Some "failed to prepare insert statement: pq: permission denied for table salesdb" /\
  trace (run src gone) =
    [SourceQuery query; TargetBegin; TxPrepare insertSQL; TxRollback; RowsClose].
Proof.
  cbv zeta.
  pose proof (fun tgt rows e =>
    X7_setup_failure Example.convertAssign_string Example.convertAssign_Time
      Example.convertAssign_float64 Example.collate
      (Example.source Example.two_sales) tgt rows e) as H.
  edestruct (H (Fixture.target_with [Example.stored_A1]
                  (Some "pq: sorry, too many clients already") None None))
    as [H1 _]; [reflexivity|].
  edestruct (H (Fixture.target_with [Example.stored_A1] None
                  (Some "pq: permission denied for table salesdb") None))
    as [_ H2]; [reflexivity|].
  rewrite (H1 eq_refl), (H2 eq_refl eq_refl).
  split; [reflexivity|]. split; reflexivity.
Defined.

Lemma X8_cursor_error_witness :
  let out := run Fixture.broken_cursor (Example.target [] []) in
  count out = 3%Z /\
  err out =
    Some "error iterating over source rows: mssql: connection reset by peer" /\
  committed out = [] /\
  List.length (target_calls (trace out)) = 7%nat.
Proof.
  pose proof (fun rows e =>
    X8_cursor_error Example.convertAssign_string Example.convertAssign_Time
      Example.convertAssign_float64 Example.collate Fixture.broken_cursor
      (Example.target [] []) rows e) as H.
  edestruct H as (H1 & H2 & H3 & H4); [reflexivity ..|].
  cbv zeta. split; [exact H1|]. split; [exact H2|]. split; [exact H3|].
  rewrite H4. reflexivity.
Defined.

Lemma X9_commit_failure_witness :
  let out := run (Example.source Example.two_sales)
                 (Fixture.target_with [Fixture.stored_Z9] None None
                    (Some "pq: server closed the connection unexpectedly")) in
  count out = 2%Z /\
  err out =
    Some "failed to commit transaction: pq: server closed the connection unexpectedly" /\
  committed out = [Fixture.stored_Z9].
Proof.
  pose proof (fun rows e =>
    X9_commit_failure Example.convertAssign_string Example.convertAssign_Time
      Example.convertAssign_float64 Example.collate
      (Example.source Example.two_sales)
      (Fixture.target_with [Fixture.stored_Z9] None None
         (Some "pq: server closed the connection unexpectedly")) rows e) as H.
  edestruct H as (H1 & H2 & H3 & _); [reflexivity ..|].
  cbv zeta. split; [exact H1|]. split; [exact H2|exact H3].
Defined.

Lemma X10_released_on_every_path_witness :
  let out := run Fixture.broken_cursor (Example.target [] Example.fifth_fails) in
  exists before, trace out = before ++ [StmtClose; TxRollback; RowsClose].
Proof.
  pose proof (fun rows =>
    X10_released_on_every_path Example.convertAssign_string
      Example.convertAssign_Time Example.convertAssign_float64 Example.collate
      Fixture.broken_cursor (Example.target [] Example.fifth_fails) rows) as H.
  edestruct H as (_ & _ & H3); [reflexivity|].
  exact (H3 eq_refl eq_refl).
Defined.


Lemma X12_skipped_rows_witness :
  let cols := map (fun c => source_field c (Example.sale (DString "C3") DNil))
                (sel_columns query) in
  exists rows v,
    DB_Query Example.collate (Example.source Example.one_malformed) query =
      Ok rows /\
    Rows_Scan Example.convertAssign_string Example.convertAssign_Time
      Example.convertAssign_float64 rows cols = Ok v.
Proof.
  cbv zeta. eexists.
  edestruct (fun rows cols HQ Hin =>
    proj2 (X12_skipped_rows Example.convertAssign_string
             Example.convertAssign_Time Example.convertAssign_float64
             Example.collate (Example.source Example.one_malformed)
             rows cols HQ Hin)) as [v Hv].
  - reflexivity.
  - right. right. left. reflexivity.
  - intros i Hi.
    do 12 (destruct i as [|i];
           [first [left; reflexivity | right; eexists; reflexivity]|]).
    exfalso. do 12 apply Nat.succ_lt_mono in Hi. inversion Hi.
  - exists v. split; [reflexivity|exact Hv].
Defined.

Lemma X14_setup_failure_is_fatal_witness :
  exit_code (program Fixture.unconfigured) = 1%Z /\
  last (printed (program Fixture.unconfigured)) EmptyString =
    "MSSQL_CONN and POSTGRES_CONN environment variables must be set. Check your .env file." /\
  pipeline (program Fixture.unconfigured) = None /\
  closed (program Fixture.unconfigured) = [] /\
  relation (program Fixture.unconfigured) = Some [Example.stored_A1].
Proof.
  exact (X14_setup_failure_is_fatal Example.convertAssign_string
           Example.convertAssign_Time Example.convertAssign_float64
           Example.collate Fixture.unconfigured _ eq_refl).
Defined.

Lemma X17_failed_program_changes_no_row_witness :
  let p := Fixture.process (Some [Fixture.old_A1]) None
             (Some "pq: server closed the connection unexpectedly") in
  exit_code (program p) = 1%Z /\
  relation (program p) = Some [Fixture.old_A1].
Proof.
  cbv zeta. split; [reflexivity|].
  pose proof (X17_failed_program_changes_no_row Example.convertAssign_string
                Example.convertAssign_Time Example.convertAssign_float64
                Example.collate
                (Fixture.process (Some [Fixture.old_A1]) None
                   (Some "pq: server closed the connection unexpectedly"))
                eq_refl) as H.
  cbn [rows_of Fixture.process Fixture.server target_server srv_SalesDB] in H.
  rewrite <- H. reflexivity.
Defined.

Lemma X18_success_report_witness :
  let p := Fixture.process None None None in
  exit_code (program p) = 0%Z /\
  last (printed (program p)) EmptyString =
    "ETL Process successful! Migrated 2 rows in 41.7ms." /\
  option_map (map row_key) (relation (program p)) =
    Some [DString "A1"; DString "A2"].
Proof.
  cbv zeta. split; [reflexivity|].
  destruct (X18_success_report Example.convertAssign_string
              Example.convertAssign_Time Example.convertAssign_float64
              Example.collate (Fixture.process None None None) eq_refl)
    as (_ & _ & _ & H4 & H5).
  rewrite H5, H4. split; reflexivity.
Defined.

Lemma X19_program_rerun_witness :
  let p := Fixture.process None None None in
  let again := program (with_relation p (relation (program p))) in
  exit_code again = 0%Z /\
  printed again = printed (program p) /\
  relation again = relation (program p).
Proof.
  exact (X19_program_rerun Example.convertAssign_string
           Example.convertAssign_Time Example.convertAssign_float64
           Example.collate (Fixture.process None None None) eq_refl).
Defined.

Lemma X20_pipeline_needs_setup_witness :
  let p := Fixture.process (Some [Fixture.old_A1]) None None in
  exists out,
    pipeline (program p) = Some out /\
    setup_failure p = None /\
    tgt_SalesDB (connect (target_server p) (Some (rows_of (srv_SalesDB (target_server p))))) =
      [Fixture.old_A1] /\
    count out = 2%Z.
Proof.
  cbv zeta. eexists. split; [reflexivity|].
  destruct (X20_pipeline_needs_setup Example.convertAssign_string
              Example.convertAssign_Time Example.convertAssign_float64
              Example.collate
              (Fixture.process (Some [Fixture.old_A1]) None None) _ eq_refl)
    as (H1 & _ & _ & _).
  split; [exact H1|]. split; reflexivity.
Defined.

Lemma X15_exec_twice_witness :
  let rs := {| rows_columns := sel_columns query; rows_data := [];
               rows_err := None |} in
  let cols := map (fun c => source_field c (Example.sale (DString "A2") DNil))
                (sel_columns query) in
  exists v sess,
    Rows_Scan Example.convertAssign_string Example.convertAssign_Time
      Example.convertAssign_float64 rs cols = Ok v /\
    Stmt_Exec insertSQL None (open_tx [] [Example.stored_A1]) (exec_args v) =
      Ok sess /\
    Stmt_Exec insertSQL None sess (exec_args v) = Ok sess /\
    option_map (map row_key) (sess_pending sess) =
      Some [DString "A1"; DString "A2"].
Proof.
  cbv zeta. eexists. eexists. split; [reflexivity|]. split; [reflexivity|].
  split; [|reflexivity].
  eapply (X15_exec_twice [] [Example.stored_A1]). reflexivity.
Defined.
